(** * ski_free: the entity state machines, in Rocq

    A shallow embedding of the game's runtime core:
    - [Entity]  (Entities/Entity.ts): position, displayed image, state tag,
      animations and their frame clock;
    - [Skier]   (Entities/Skier.ts): the player's direction/speed state
      machine, collision classification and input handling;
    - [Game]    (Core/Game.ts): the pause toggle.

    Conventions.
    - A JavaScript [number] that holds a coordinate, a speed, a size or a
      time stamp is an IEEE-754 binary64 value: Rocq's primitive [float],
      with the same arithmetic and comparisons.  The skier's [direction]
      only ever holds the integer constants 0..4 and their successors or
      predecessors, and is an integer [Z]; a frame index is a [nat].
    - [null] and [undefined] are both falsy and are both [None].
    - Methods mutate [this]; here they take the object and return the new
      one.  The image manager and the obstacle manager are objects shared
      with the rest of the game and only read by the code below: their
      current contents are passed to the methods that read them. *)

From Stdlib Require Import ZArith List String Floats Bool Lia.
From stdpp Require Import base option countable numbers gmap strings list.
Import ListNotations.

Abbreviation number := float (only parsing).

(** ** Core/Utils.ts *)

Module Position.
Record t := mk { x : number; y : number }.
End Position.

Module Rect.
Record t := mk { left : number; top : number; right : number; bottom : number }.
End Rect.

(** Modelled from the spec: Core/Utils.ts is not part of the sources.  "true
    iff two axis-aligned rectangles overlap on both axes: not (a.right <
    b.left or a.left > b.right or a.bottom < b.top or a.top > b.bottom)". *)
Definition intersectTwoRects (a b : Rect.t) : bool :=
  negb ((Rect.right a <? Rect.left b)%float
        || (Rect.right b <? Rect.left a)%float
        || (Rect.bottom a <? Rect.top b)%float
        || (Rect.bottom b <? Rect.top a)%float).

(** ** Core/ImageManager.ts *)

Record Image := mkImage { width : number; height : number }.

(** Modelled from the spec: Core/ImageManager.ts is not part of the sources.
    "Synchronous lookup by identifier returning a decoded image handle with
    width/height, or not yet available".  An [undefined] identifier finds
    nothing. *)
Definition ImageManager (Img : Type) : Type := Img -> option Image.

Definition getImage {Img} (imageManager : ImageManager Img)
    (imageName : option Img) : option Image :=
  match imageName with
  | Some n => imageManager n
  | None => None
  end.

(** ** Core/Canvas.ts *)

(** Modelled from the spec: Core/Canvas.ts is not part of the sources.  The
    drawing surface supports "drawing an image at a world position with
    explicit width/height"; a call [drawImage(image, x, y, width, height)]
    is recorded as its arguments. *)
Module Canvas.
Record drawImage := mk {
  image : Image; x : number; y : number; w : number; h : number
}.
End Canvas.

(** ** Core/Animation.ts *)

(** Modelled from the spec: Core/Animation.ts is not part of the sources.
    "Ordered sequence of image identifiers, a looping flag, and an optional
    zero-argument completion callback"; no internal state.  A callback is a
    tag of type [Callback]; the owning entity says what each tag runs. *)
Module Animation.
Record t (Img Callback : Type) := mk {
  getImages : list Img;
  getLooping : bool;
  getCallback : option Callback
}.
Arguments mk {Img Callback} _ _ _.
Arguments getImages {Img Callback} _.
Arguments getLooping {Img Callback} _.
Arguments getCallback {Img Callback} _.
End Animation.

(** ** Entities/Entity.ts *)

Module Entity.
Section Entity.
(** The enums of state tags and of image names live in Constants.ts, which
    is not part of the sources: the base class is generic in both.
    [Fields] are the fields a subclass adds, [Callback] its animation
    callbacks. *)
Context {States Img Fields Callback : Type} `{Countable States}.

Record t := mk {
  position : Position.t;
  imageName : option Img;
  state : option States;
  animations : gmap States (Animation.t Img Callback);
  curAnimation : option (Animation.t Img Callback);
  curAnimationFrame : nat;
  curAnimationFrameTime : number;
  fields : Fields
}.

(** Field assignments. *)
Definition set_position (p : Position.t) (e : t) : t :=
  mk p (imageName e) (state e) (animations e) (curAnimation e)
     (curAnimationFrame e) (curAnimationFrameTime e) (fields e).
Definition set_imageName (n : option Img) (e : t) : t :=
  mk (position e) n (state e) (animations e) (curAnimation e)
     (curAnimationFrame e) (curAnimationFrameTime e) (fields e).
Definition set_state (s : option States) (e : t) : t :=
  mk (position e) (imageName e) s (animations e) (curAnimation e)
     (curAnimationFrame e) (curAnimationFrameTime e) (fields e).
Definition set_animations (m : gmap States (Animation.t Img Callback)) (e : t) : t :=
  mk (position e) (imageName e) (state e) m (curAnimation e)
     (curAnimationFrame e) (curAnimationFrameTime e) (fields e).
Definition set_curAnimation (a : option (Animation.t Img Callback)) (e : t) : t :=
  mk (position e) (imageName e) (state e) (animations e) a
     (curAnimationFrame e) (curAnimationFrameTime e) (fields e).
Definition set_curAnimationFrame (i : nat) (e : t) : t :=
  mk (position e) (imageName e) (state e) (animations e) (curAnimation e)
     i (curAnimationFrameTime e) (fields e).
Definition set_curAnimationFrameTime (g : number) (e : t) : t :=
  mk (position e) (imageName e) (state e) (animations e) (curAnimation e)
     (curAnimationFrame e) g (fields e).
Definition set_fields (f : Fields) (e : t) : t :=
  mk (position e) (imageName e) (state e) (animations e) (curAnimation e)
     (curAnimationFrame e) (curAnimationFrameTime e) f.

(** [constructor(x, y, imageManager, canvas)]; the subclass's field
    initialisers supply [imageName], [state] and its own fields. *)
Definition new (x y : number) (n : option Img) (s : option States) (f : Fields) : t :=
  mk (Position.mk x y) n s ∅ None 0 0%float f.

Definition getPosition (e : t) : Position.t := position e.

(** [draw()]: the call made on the canvas, if any. *)
Definition draw (imageManager : ImageManager Img) (e : t) : option Canvas.drawImage :=
  match getImage imageManager (imageName e) with
  | None => None
  | Some image =>
      let drawX := (Position.x (position e) - width image / 2)%float in
      let drawY := (Position.y (position e) - height image / 2)%float in
      Some (Canvas.mk image drawX drawY (width image) (height image))
  end.

(** [getBounds()]: the box of the image currently displayed. *)
Definition getBounds (imageManager : ImageManager Img) (e : t) : option Rect.t :=
  match getImage imageManager (imageName e) with
  | None => None
  | Some image =>
      Some (Rect.mk
        (Position.x (position e) - width image / 2)%float
        (Position.y (position e) - height image / 2)%float
        (Position.x (position e) + width image / 2)%float
        (Position.y (position e)))
  end.

(** [this.animations[this.state]]: [undefined] when the tag has no entry
  (or is [null]: no code registers the key "null"). *)
Definition registeredAnimation (e : t) : option (Animation.t Img Callback) :=
  match state e with
  | Some s => animations e !! s
  | None => None
  end.

(** [setAnimation()] *)
Definition setAnimation (e : t) : t :=
  let e := set_curAnimation (registeredAnimation e) e in
  match curAnimation e with
  | None => e
  | Some a =>
    let e := set_curAnimationFrame 0 e in
    let animateImages := Animation.getImages a in
    set_imageName (animateImages !! curAnimationFrame e) e
  end.

(** What a callback tag runs: [animationCallback.apply(null)] calls a
    closure bound to the entity. *)
Variable applyCallback : Callback -> t -> t.

(** [finishAnimation()] *)
Definition finishAnimation (e : t) : t :=
  match curAnimation e with
  | None => e
  | Some a =>
      let animationCallback := Animation.getCallback a in
      let e := set_curAnimation None e in
      match animationCallback with
      | Some cb => applyCallback cb e
      | None => e
      end
  end.

(** [nextAnimationFrame(gameTime)] *)
Definition nextAnimationFrame (gameTime : number) (e : t) : t :=
  match curAnimation e with
  | None => e
  | Some a =>
      let animationImages := Animation.getImages a in
      let e := set_curAnimationFrameTime gameTime e in
      let e := set_curAnimationFrame (S (curAnimationFrame e)) e in
      if (length animationImages <=? curAnimationFrame e)%nat
         && negb (Animation.getLooping a)
      then finishAnimation e
      else
        let e := if (length animationImages <=? curAnimationFrame e)%nat
                 then set_curAnimationFrame 0 e else e in
        set_imageName (animationImages !! curAnimationFrame e) e
  end.

(** [animate(gameTime, animationFrameSpeed)] *)
Definition animate (gameTime animationFrameSpeed : number) (e : t) : t :=
  match curAnimation e with
  | None => e
  | Some _ =>
      if (animationFrameSpeed <? gameTime - curAnimationFrameTime e)%float
      then nextAnimationFrame gameTime e
      else e
  end.
End Entity.
Arguments t : clear implicits.
Arguments t States Img Fields Callback {_ _}.
End Entity.

(** ** Constants.ts *)

(** Modelled from the spec: Constants.ts is not part of the sources.  The
    members listed are the ones Skier.ts names; the obstacle kinds are the
    spec's closed set "trees, tree clusters, rocks, jump ramps". *)
Inductive IMAGE_NAMES : Set :=
| SKIER_CRASH | SKIER_LEFT | SKIER_LEFTDOWN | SKIER_DOWN | SKIER_RIGHTDOWN | SKIER_RIGHT
| SKIER_JUMP1 | SKIER_JUMP2 | SKIER_JUMP3 | SKIER_JUMP4 | SKIER_JUMP5
| TREE | TREE_CLUSTER | ROCK1 | ROCK2 | JUMP_RAMP.

(** Modelled from the spec: the state tags of Constants.ts that Skier.ts
    names ("States: SKIING, JUMPING, CRASHED, DEAD"). *)
Inductive STATES : Set :=
| STATE_SKIING | STATE_JUMPING | STATE_CRASHED | STATE_DEAD.

#[global] Instance IMAGE_NAMES_eq_dec : EqDecision IMAGE_NAMES.
Proof. solve_decision. Defined.

#[global] Instance STATES_eq_dec : EqDecision STATES.
Proof. solve_decision. Defined.

#[global] Instance STATES_countable : Countable STATES.
Proof.
  refine (inj_countable'
    (fun s => match s with
              | STATE_SKIING => 0 | STATE_JUMPING => 1
              | STATE_CRASHED => 2 | STATE_DEAD => 3
              end)
    (fun n => match n with
              | 0 => STATE_SKIING | 1 => STATE_JUMPING
              | 2 => STATE_CRASHED | _ => STATE_DEAD
              end) _).
  intros []; reflexivity.
Defined.

(** The key codes and the diagonal speed divisor are constants of
    Constants.ts whose values the sources do not show: the code below takes
    them as parameters. *)
Module KEYS.
Record t := mk {
  LEFT : string; RIGHT : string; UP : string; DOWN : string;
  SPACE : string; TOGGLE_PAUSE : string
}.
End KEYS.

(** ** Entities/Obstacles *)

(** Modelled from the spec: Obstacle.ts and ObstacleManager.ts are not part
    of the sources.  An obstacle is an entity with "position plus a fixed
    image identifier", "no state machine", no animation: it has the base
    class's [getBounds].  [getObstacles()] returns the active obstacles. *)
Definition Obstacle : Type := Entity.t STATES IMAGE_NAMES unit Empty_set.

Definition Obstacle_new (x y : number) (imageName : IMAGE_NAMES) : Obstacle :=
  Entity.new x y (Some imageName) None tt.

Definition ObstacleManager : Type := list Obstacle.

Definition getObstacles (obstacleManager : ObstacleManager) : list Obstacle :=
  obstacleManager.

(** ** Entities/Skier.ts *)

Module Skier.

Definition STARTING_SPEED : number := 5%float.

Definition DIRECTION_LEFT : Z := 0.
Definition DIRECTION_LEFT_DOWN : Z := 1.
Definition DIRECTION_DOWN : Z := 2.
Definition DIRECTION_RIGHT_DOWN : Z := 3.
Definition DIRECTION_RIGHT : Z := 4.

Definition DIRECTION_IMAGES : gmap Z IMAGE_NAMES :=
  <[DIRECTION_LEFT := SKIER_LEFT]>
  (<[DIRECTION_LEFT_DOWN := SKIER_LEFTDOWN]>
  (<[DIRECTION_DOWN := SKIER_DOWN]>
  (<[DIRECTION_RIGHT_DOWN := SKIER_RIGHTDOWN]>
  (<[DIRECTION_RIGHT := SKIER_RIGHT]> ∅)))).

Definition IMAGES_JUMPING : list IMAGE_NAMES :=
  [SKIER_JUMP1; SKIER_JUMP2; SKIER_JUMP3; SKIER_JUMP4; SKIER_JUMP5].

(** The fields the class adds to the base class. *)
Record Fields := mkFields { direction_ : Z; speed_ : number }.

(** The one callback the class registers: [this.continueFromJump.bind(this)]. *)
Inductive Callback : Set := ContinueFromJump.

Definition t : Type := Entity.t STATES IMAGE_NAMES Fields Callback.

Definition direction (s : t) : Z := direction_ (Entity.fields s).
Definition speed (s : t) : number := speed_ (Entity.fields s).
Definition set_direction (d : Z) (s : t) : t :=
  Entity.set_fields (mkFields d (speed s)) s.
Definition set_speed (v : number) (s : t) : t :=
  Entity.set_fields (mkFields (direction s) v) s.
Definition set_x (v : number) (s : t) : t :=
  Entity.set_position (Position.mk v (Position.y (Entity.position s))) s.
Definition set_y (v : number) (s : t) : t :=
  Entity.set_position (Position.mk (Position.x (Entity.position s)) v) s.

(** [new Animation(IMAGES_JUMPING, false, this.continueFromJump.bind(this))] *)
Definition jumpAnimation : Animation.t IMAGE_NAMES Callback :=
  Animation.mk IMAGES_JUMPING false (Some ContinueFromJump).

(** [setupAnimations()] *)
Definition setupAnimations (s : t) : t :=
  Entity.set_animations (<[STATE_JUMPING := jumpAnimation]> (Entity.animations s)) s.

(** [constructor(x, y, imageManager, obstacleManager, canvas)], after the
    field initialisers [imageName = SKIER_DOWN], [state = STATE_SKIING],
    [direction = DIRECTION_DOWN], [speed = STARTING_SPEED]. *)
Definition new (x y : number) : t :=
  setupAnimations
    (Entity.new x y (Some SKIER_DOWN) (Some STATE_SKIING)
       (mkFields DIRECTION_DOWN STARTING_SPEED)).

Definition isSkiing (s : t) : bool := bool_decide (Entity.state s = Some STATE_SKIING).
Definition isJumping (s : t) : bool := bool_decide (Entity.state s = Some STATE_JUMPING).
Definition isCrashed (s : t) : bool := bool_decide (Entity.state s = Some STATE_CRASHED).
Definition isDead (s : t) : bool := bool_decide (Entity.state s = Some STATE_DEAD).

(** [setDirectionalImage()]: [DIRECTION_IMAGES[this.direction]] is
    [undefined] for a direction outside the table. *)
Definition setDirectionalImage (s : t) : t :=
  Entity.set_imageName (DIRECTION_IMAGES !! direction s) s.

Definition setDirection (d : Z) (s : t) : t :=
  setDirectionalImage (set_direction d s).

Definition moveSkierLeft (s : t) : t :=
  set_x (Position.x (Entity.position s) - STARTING_SPEED)%float s.
Definition moveSkierRight (s : t) : t :=
  set_x (Position.x (Entity.position s) + STARTING_SPEED)%float s.
Definition moveSkierUp (s : t) : t :=
  set_y (Position.y (Entity.position s) - STARTING_SPEED)%float s.
Definition moveSkierDown (s : t) : t :=
  set_y (Position.y (Entity.position s) + speed s)%float s.

(** [crash()] *)
Definition crash (s : t) : t :=
  let s := Entity.set_state (Some STATE_CRASHED) s in
  let s := set_speed 0%float s in
  Entity.set_imageName (Some SKIER_CRASH) s.

(** [recoverFromCrash(newDirection)] *)
Definition recoverFromCrash (newDirection : Z) (s : t) : t :=
  let s := Entity.set_state (Some STATE_SKIING) s in
  let s := set_speed STARTING_SPEED s in
  setDirection newDirection s.

(** [continueFromJump()] *)
Definition continueFromJump (s : t) : t :=
  let s := Entity.set_state (Some STATE_SKIING) s in
  let s := set_speed STARTING_SPEED s in
  setDirection DIRECTION_DOWN s.

(** [die()] *)
Definition die (s : t) : t :=
  let s := Entity.set_state (Some STATE_DEAD) s in
  set_speed 0%float s.

(** The closures the skier's animations call back. *)
Definition applyCallback (cb : Callback) : t -> t :=
  match cb with
  | ContinueFromJump => continueFromJump
  end.

(** [turnLeft()] *)
Definition turnLeft (s : t) : t :=
  if negb (isJumping s) then
    let s := if isCrashed s then recoverFromCrash DIRECTION_LEFT s else s in
    if bool_decide (direction s = DIRECTION_LEFT) then moveSkierLeft s
    else setDirection (direction s - 1) s
  else s.

(** [turnRight()] *)
Definition turnRight (s : t) : t :=
  if negb (isJumping s) then
    let s := if isCrashed s then recoverFromCrash DIRECTION_RIGHT s else s in
    if bool_decide (direction s = DIRECTION_RIGHT) then moveSkierRight s
    else setDirection (direction s + 1) s
  else s.

(** [turnUp()] *)
Definition turnUp (s : t) : t :=
  if negb (isJumping s) then
    if isCrashed s then s
    else if bool_decide (direction s = DIRECTION_LEFT)
            || bool_decide (direction s = DIRECTION_RIGHT)
         then moveSkierUp s
         else s
  else s.

(** [turnDown()] *)
Definition turnDown (s : t) : t :=
  if negb (isJumping s) then
    if isCrashed s then s
    else setDirection DIRECTION_DOWN s
  else s.

(** [jump()] *)
Definition jump (s : t) : t :=
  if isCrashed s || isJumping s then s
  else
    let s := Entity.set_state (Some STATE_JUMPING) s in
    Entity.setAnimation s.

(** [getBounds()], the override: the bottom edge is moved up. *)
Definition getBounds (imageManager : ImageManager IMAGE_NAMES) (s : t) : option Rect.t :=
  match getImage imageManager (Entity.imageName s) with
  | None => None
  | Some image =>
      Some (Rect.mk
        (Position.x (Entity.position s) - width image / 2)%float
        (Position.y (Entity.position s) - height image / 2)%float
        (Position.x (Entity.position s) + width image / 2)%float
        (Position.y (Entity.position s) - height image / 4)%float)
  end.

(** [draw()], the override. *)
Definition draw (imageManager : ImageManager IMAGE_NAMES) (s : t) : option Canvas.drawImage :=
  if isDead s then None else Entity.draw imageManager s.

(** [isRockJumpCollision(collided, imageName)] *)
Definition isRockJumpCollision (s : t) (collided : bool) (imageName : option IMAGE_NAMES) : bool :=
  collided
  && (bool_decide (imageName = Some ROCK1) || bool_decide (imageName = Some ROCK2))
  && bool_decide (Entity.state s = Some STATE_JUMPING).

(** [isJumpRampCollision(collided, imageName)] *)
Definition isJumpRampCollision (collided : bool) (imageName : option IMAGE_NAMES) : bool :=
  collided && bool_decide (imageName = Some JUMP_RAMP).

(** The two predicates [checkIfHitObstacle] hands to [obstacles.find]. *)
Definition jumpRampPredicate (imageManager : ImageManager IMAGE_NAMES)
    (skierBounds : Rect.t) (obstacle : Obstacle) : bool :=
  match Entity.getBounds imageManager obstacle with
  | None => false
  | Some obstacleBounds =>
      let collided := intersectTwoRects skierBounds obstacleBounds in
      if isJumpRampCollision collided (Entity.imageName obstacle) then true else false
  end.

Definition normalPredicate (imageManager : ImageManager IMAGE_NAMES) (s : t)
    (skierBounds : Rect.t) (obstacle : Obstacle) : bool :=
  match Entity.getBounds imageManager obstacle with
  | None => false
  | Some obstacleBounds =>
      let collided := intersectTwoRects skierBounds obstacleBounds in
      if isRockJumpCollision s collided (Entity.imageName obstacle) then false
      else collided
  end.

(** [checkIfHitObstacle()] *)
Definition checkIfHitObstacle (imageManager : ImageManager IMAGE_NAMES)
    (obstacleManager : ObstacleManager) (s : t) : t :=
  match getBounds imageManager s with
  | None => s
  | Some skierBounds =>
      let obstacles := getObstacles obstacleManager in
      let jumpRampCollision := find (jumpRampPredicate imageManager skierBounds) obstacles in
      match jumpRampCollision with
      | Some _ => jump s
      | None =>
          let normalCollision := find (normalPredicate imageManager s skierBounds) obstacles in
          match normalCollision with
          | Some _ => crash s
          | None => s
          end
      end
  end.

Section Constants.
Variable KEYS : KEYS.t.
Variable DIAGONAL_SPEED_REDUCER : number.

Definition moveSkierLeftDown (s : t) : t :=
  let s := set_x (Position.x (Entity.position s) - speed s / DIAGONAL_SPEED_REDUCER)%float s in
  set_y (Position.y (Entity.position s) + speed s / DIAGONAL_SPEED_REDUCER)%float s.

Definition moveSkierRightDown (s : t) : t :=
  let s := set_x (Position.x (Entity.position s) + speed s / DIAGONAL_SPEED_REDUCER)%float s in
  set_y (Position.y (Entity.position s) + speed s / DIAGONAL_SPEED_REDUCER)%float s.

(** [move()]; a [switch] with no matching [case] does nothing. *)
Definition move (s : t) : t :=
  if bool_decide (direction s = DIRECTION_LEFT_DOWN) then moveSkierLeftDown s
  else if bool_decide (direction s = DIRECTION_DOWN) then moveSkierDown s
  else if bool_decide (direction s = DIRECTION_RIGHT_DOWN) then moveSkierRightDown s
  else s.

(** [update(gameTime)] *)
Definition update (imageManager : ImageManager IMAGE_NAMES)
    (obstacleManager : ObstacleManager) (gameTime : number) (s : t) : t :=
  let s := if isSkiing s || isJumping s
           then checkIfHitObstacle imageManager obstacleManager (move s)
           else s in
  Entity.animate applyCallback gameTime (250 / STARTING_SPEED)%float s.

(** [handleInput(inputCode)]: the value returned and the skier afterwards.
    The [switch] takes the first [case] whose key is the code. *)
Definition handleInput (inputCode : string) (s : t) : bool * t :=
  if isDead s then (false, s)
  else if String.eqb inputCode (KEYS.LEFT KEYS) then (true, turnLeft s)
  else if String.eqb inputCode (KEYS.RIGHT KEYS) then (true, turnRight s)
  else if String.eqb inputCode (KEYS.UP KEYS) then (true, turnUp s)
  else if String.eqb inputCode (KEYS.DOWN KEYS) then (true, turnDown s)
  else if String.eqb inputCode (KEYS.SPACE KEYS) then (true, jump s)
  else (false, s).

(** The calls the rest of the game makes on the skier: the frame loop's
    [update], the key handler's [handleInput], the rhino's [die], and the
    pause toggle's assignment to [speed]. *)
Inductive call : Type :=
| Update (imageManager : ImageManager IMAGE_NAMES) (obstacleManager : ObstacleManager)
         (gameTime : number)
| HandleInput (inputCode : string)
| Die
| SetSpeed (v : number).

Definition perform (s : t) (c : call) : t :=
  match c with
  | Update imageManager obstacleManager gameTime =>
      update imageManager obstacleManager gameTime s
  | HandleInput inputCode => snd (handleInput inputCode s)
  | Die => die s
  | SetSpeed v => set_speed v s
  end.

Definition run (calls : list call) (s : t) : t := fold_left perform calls s.

End Constants.
End Skier.

(** ** Entities/Rhino.ts *)

(** Modelled from the spec: Rhino.ts is not part of the sources.  The
    pursuer is an entity with a [speed] of its own (Game.ts assigns it);
    its state tags, images, callbacks and other fields are left open. *)
Module Rhino.
Section Rhino.
Context {States Img Rest Callback : Type} `{Countable States}.

Record Fields := mkFields { speed_ : number; rest : Rest }.

Definition t : Type := Entity.t States Img Fields Callback.

Definition speed (r : t) : number := speed_ (Entity.fields r).
Definition set_speed (v : number) (r : t) : t :=
  Entity.set_fields (mkFields v (rest (Entity.fields r))) r.
End Rhino.
Arguments Fields : clear implicits.
Arguments t : clear implicits.
Arguments t States Img Rest Callback {_ _}.
End Rhino.

(** ** Core/Game.ts *)

Module Game.
Section Game.
Context {RStates RImg RRest RCallback : Type} `{Countable RStates}.

(** [STARTING_SPEED] of Rhino.ts, imported as [STARTING_SPEED_RHINO]. *)
Variable STARTING_SPEED_RHINO : number.
Definition STARTING_SPEED_SKIER : number := Skier.STARTING_SPEED.
Variable KEYS : KEYS.t.

(** The game's fields, the drawing surface apart. *)
Record t := mk {
  gameWindow : Rect.t;
  gameTime : number;
  imageManager : ImageManager IMAGE_NAMES;
  obstacleManager : ObstacleManager;
  paused : bool;
  skier : Skier.t;
  rhino : Rhino.t RStates RImg RRest RCallback
}.

Definition set_paused (b : bool) (g : t) : t :=
  mk (gameWindow g) (gameTime g) (imageManager g) (obstacleManager g) b (skier g) (rhino g).
Definition set_skier (s : Skier.t) (g : t) : t :=
  mk (gameWindow g) (gameTime g) (imageManager g) (obstacleManager g) (paused g) s (rhino g).
Definition set_rhino (r : Rhino.t RStates RImg RRest RCallback) (g : t) : t :=
  mk (gameWindow g) (gameTime g) (imageManager g) (obstacleManager g) (paused g) (skier g) r.

(** [togglePause()] *)
Definition togglePause (g : t) : t :=
  let g := set_paused (negb (paused g)) g in
  if negb (paused g) then
    let g := set_skier (Skier.set_speed STARTING_SPEED_SKIER (skier g)) g in
    set_rhino (Rhino.set_speed STARTING_SPEED_RHINO (rhino g)) g
  else
    let g := set_skier (Skier.set_speed 0%float (skier g)) g in
    set_rhino (Rhino.set_speed 0%float (rhino g)) g.

(** [handleInput(inputCode)]: the value returned and the game afterwards. *)
Definition handleInput (inputCode : string) (g : t) : bool * t :=
  if String.eqb inputCode (KEYS.TOGGLE_PAUSE KEYS) then (true, togglePause g)
  else (false, g).

(** [handleKeyDown(event)], on [event.code]: whether [event.preventDefault()]
    is called, and the game afterwards. *)
Definition handleKeyDown (code : string) (g : t) : bool * t :=
  let '(handledSkier, g) :=
    if negb (paused g)
    then let '(handled, s) := Skier.handleInput KEYS code (skier g) in
         (handled, set_skier s g)
    else (false, g) in
  let '(handledGame, g) := handleInput code g in
  (handledSkier || handledGame, g).
End Game.
Arguments t : clear implicits.
Arguments t RStates RImg RRest RCallback {_ _}.
End Game.

(** ** The spec's wording of the bounding boxes, for comparison *)

(** "A world-space rectangle centered on position sized to the current
    image": full image width and full image height around the position. *)
Definition centredBounds (position : Position.t) (image : Image) : Rect.t :=
  Rect.mk
    (Position.x position - width image / 2)%float
    (Position.y position - height image / 2)%float
    (Position.x position + width image / 2)%float
    (Position.y position + height image / 2)%float.

(** "Player override narrows the bottom edge to 3/4 of image height": the
    centred box cut at three quarters of the image height below its top. *)
Definition narrowedBounds (position : Position.t) (image : Image) : Rect.t :=
  Rect.mk
    (Position.x position - width image / 2)%float
    (Position.y position - height image / 2)%float
    (Position.x position + width image / 2)%float
    (Position.y position - height image / 2 + 3 * height image / 4)%float.

(** ** Vocabulary of the collision properties *)

(** The obstacle's image is loaded and its box meets the skier's. *)
Definition overlaps (imageManager : ImageManager IMAGE_NAMES) (skierBounds : Rect.t)
    (obstacle : Obstacle) : bool :=
  match Entity.getBounds imageManager obstacle with
  | Some obstacleBounds => intersectTwoRects skierBounds obstacleBounds
  | None => false
  end.

Definition isJumpRamp (obstacle : Obstacle) : bool :=
  bool_decide (Entity.imageName obstacle = Some JUMP_RAMP).

Definition isRock (obstacle : Obstacle) : bool :=
  bool_decide (Entity.imageName obstacle = Some ROCK1)
  || bool_decide (Entity.imageName obstacle = Some ROCK2).

(** The skier's direction is one of the five headings. *)
Definition validDirection (s : Skier.t) : Prop :=
  (Skier.DIRECTION_LEFT <= Skier.direction s <= Skier.DIRECTION_RIGHT)%Z.

(** [keeps s s']: the animation table is the same and a valid heading
    stays valid. *)
Definition keeps (s s' : Skier.t) : Prop :=
  Entity.animations s' = Entity.animations s
  /\ (validDirection s -> validDirection s').

(** The frames go by: [nextAnimationFrame] at each of the times, in order. *)
Definition advanceFrames {States Img Fields Callback : Type} `{Countable States}
    (applyCallback : Callback -> Entity.t States Img Fields Callback
                     -> Entity.t States Img Fields Callback)
    (times : list number) (e : Entity.t States Img Fields Callback)
    : Entity.t States Img Fields Callback :=
  fold_left (fun e gameTime => Entity.nextAnimationFrame applyCallback gameTime e) times e.

(** ** Data for the examples *)

(** Every image loaded, 20 wide and 40 high. *)
Definition allLoaded : ImageManager IMAGE_NAMES := fun _ => Some (mkImage 20 40).

(** The [KeyboardEvent.code] values of the arrow keys, the space bar and P. *)
Definition sampleKeys : KEYS.t :=
  KEYS.mk "ArrowLeft" "ArrowRight" "ArrowUp" "ArrowDown" "Space" "KeyP".

(** The binary64 value nearest the square root of two. *)
Definition sampleReducer : number := 0x1.6a09e667f3bcdp+0%float.

(** A skier in mid-jump: the jump animation runs, at its first frame. *)
Definition jumpingSkier : Skier.t := Skier.jump (Skier.new 0 0).

(** A three-frame animation on a skier, with the jump's callback. *)
Definition threeFrames : Animation.t IMAGE_NAMES Skier.Callback :=
  Animation.mk [SKIER_JUMP1; SKIER_JUMP2; SKIER_JUMP3] false (Some Skier.ContinueFromJump).

Definition threeFrameSkier : Skier.t :=
  Entity.set_curAnimation (Some threeFrames) (Skier.new 0 0).

(** An entity whose only field counts the calls of its one callback. *)
Definition Counter : Type := Entity.t STATES IMAGE_NAMES nat unit.

Definition countCall (cb : unit) (e : Counter) : Counter :=
  Entity.set_fields (S (Entity.fields e)) e.

Definition counter : Counter :=
  Entity.set_curAnimation
    (Some (Animation.mk [TREE; ROCK1; ROCK2] false (Some tt)))
    (Entity.new 0 0 (Some TREE) None 0).

(** A tree under the skier's starting box, a rock and a ramp there too. *)
Definition treeAtStart : Obstacle := Obstacle_new 0 0 TREE.
Definition rockAtStart : Obstacle := Obstacle_new 0 0 ROCK1.
Definition rampAtStart : Obstacle := Obstacle_new 0 0 JUMP_RAMP.

(** A running game: a skier at the origin, a chasing entity behind it. *)
Definition sampleRhino : Rhino.t STATES IMAGE_NAMES unit Empty_set :=
  Entity.new (-500) (-2000) None None (Rhino.mkFields 10 tt).

Definition sampleGame : Game.t STATES IMAGE_NAMES unit Empty_set :=
  Game.mk (Rect.mk (-400) (-300) 400 300) 0 allLoaded [] false
    (Skier.new 0 0) sampleRhino.

(** ** Vocabulary of the further properties *)

(** The skier shows an image, and its current animation, if any, is the jump
    animation at one of its five frames. *)
Definition showsImage (s : Skier.t) : Prop :=
  is_Some (Entity.imageName s)
  /\ (Entity.curAnimation s = None
      \/ Entity.curAnimation s = Some Skier.jumpAnimation
         /\ Entity.curAnimationFrame s < length Skier.IMAGES_JUMPING).

(** The skier's speed is one of the two values the code assigns. *)
Definition stoppedOrStarting (v : number) : Prop :=
  v = 0%float \/ v = Skier.STARTING_SPEED.

(** The speed assignments among the calls are the pause toggle's. *)
Definition pauseAssignment (c : Skier.call) : Prop :=
  match c with
  | Skier.SetSpeed v => stoppedOrStarting v
  | _ => True
  end.

Definition notDie (c : Skier.call) : Prop :=
  match c with
  | Skier.Die => False
  | _ => True
  end.

(** One of the three states of a skier that has not been caught. *)
Definition alive (s : Skier.t) : Prop :=
  Entity.state s = Some STATE_SKIING
  \/ Entity.state s = Some STATE_JUMPING
  \/ Entity.state s = Some STATE_CRASHED.

(** A looping two-frame animation on the counting entity. *)
Definition loopingCounter : Counter :=
  Entity.set_curAnimation
    (Some (Animation.mk [TREE; TREE_CLUSTER] true (Some tt)))
    (Entity.new 0 0 (Some TREE) None 0).

(** * Properties *)

(** Settle the tests on state tags and headings that have a known answer. *)
Ltac settle_tests :=
  repeat match goal with
  | |- context [bool_decide ?P] =>
      first [ rewrite (bool_decide_eq_true_2 P) by (first [reflexivity | congruence | lia])
            | rewrite (bool_decide_eq_false_2 P) by (first [congruence | lia]) ]
  end.

(** Unfold the skier's methods down to field assignments. *)
Ltac unfold_skier :=
  unfold Skier.turnLeft, Skier.turnRight, Skier.turnUp, Skier.turnDown, Skier.jump,
    Skier.crash, Skier.die, Skier.recoverFromCrash, Skier.continueFromJump,
    Skier.moveSkierLeft, Skier.moveSkierRight, Skier.moveSkierUp, Skier.moveSkierDown,
    Skier.moveSkierLeftDown, Skier.moveSkierRightDown, Skier.move,
    Skier.setDirection, Skier.setDirectionalImage, Entity.setAnimation,
    Skier.isJumping, Skier.isCrashed, Skier.isSkiing, Skier.isDead.

(** Prove [keeps] by cases on the tests of the method. *)
Ltac keeps_by_cases :=
  unfold keeps, validDirection, Skier.DIRECTION_LEFT, Skier.DIRECTION_RIGHT,
    Skier.DIRECTION_DOWN, Skier.DIRECTION_LEFT_DOWN, Skier.DIRECTION_RIGHT_DOWN in *;
  repeat first [case_bool_decide | case_match];
  unfold Skier.set_x, Skier.set_y, Skier.set_speed, Skier.set_direction,
    Skier.direction, Skier.speed in *;
  cbn in *; split; (reflexivity || lia).

(** ** Entity *)

Section EntityFacts.
Context {States Img Fields Callback : Type} `{Countable States}.
Variable applyCallback :
  Callback -> Entity.t States Img Fields Callback -> Entity.t States Img Fields Callback.

Implicit Types e : Entity.t States Img Fields Callback.

Lemma nextAnimationFrame_idle e gameTime :
  Entity.curAnimation e = None ->
  Entity.nextAnimationFrame applyCallback gameTime e = e.
Proof. intros Hcur. unfold Entity.nextAnimationFrame. now rewrite Hcur. Qed.

Lemma animate_idle e gameTime animationFrameSpeed :
  Entity.curAnimation e = None ->
  Entity.animate applyCallback gameTime animationFrameSpeed e = e.
Proof. intros Hcur. unfold Entity.animate. now rewrite Hcur. Qed.

(** An advance that stays inside the frames shows the next frame. *)
Lemma nextAnimationFrame_inside e a gameTime :
  Entity.curAnimation e = Some a ->
  S (Entity.curAnimationFrame e) < length (Animation.getImages a) ->
  Entity.nextAnimationFrame applyCallback gameTime e
  = Entity.set_imageName (Animation.getImages a !! S (Entity.curAnimationFrame e))
      (Entity.set_curAnimationFrame (S (Entity.curAnimationFrame e))
         (Entity.set_curAnimationFrameTime gameTime e)).
Proof.
  intros Hcur Hlt. unfold Entity.nextAnimationFrame. rewrite Hcur. cbn.
  apply Nat.leb_gt in Hlt. now rewrite Hlt.
Qed.

(** An advance past the last frame of a non-looping animation clears the
    current animation and then calls the callback, once. *)
Lemma nextAnimationFrame_past_end e a gameTime :
  Entity.curAnimation e = Some a ->
  Animation.getLooping a = false ->
  length (Animation.getImages a) <= S (Entity.curAnimationFrame e) ->
  Entity.nextAnimationFrame applyCallback gameTime e
  = let finished :=
      Entity.set_curAnimation None
        (Entity.set_curAnimationFrame (S (Entity.curAnimationFrame e))
           (Entity.set_curAnimationFrameTime gameTime e)) in
    match Animation.getCallback a with
    | Some cb => applyCallback cb finished
    | None => finished
    end.
Proof.
  intros Hcur Hloop Hle. unfold Entity.nextAnimationFrame. rewrite Hcur. cbn.
  apply Nat.leb_le in Hle. rewrite Hle, Hloop. cbn.
  unfold Entity.finishAnimation. cbn. now rewrite Hcur.
Qed.

(** C4, as amended.  When the current state tag has no animation registered,
    [setAnimation] assigns the failed lookup to [curAnimation] before it
    returns: the current animation becomes null, so a prior animation no
    longer advances; the frame index, the frame time, the displayed image
    and every other field are left as they were. *)
Theorem setAnimation_unregistered e :
  Entity.registeredAnimation e = None ->
  Entity.setAnimation e = Entity.set_curAnimation None e
  /\ Entity.curAnimation (Entity.setAnimation e) = None
  /\ Entity.curAnimationFrame (Entity.setAnimation e) = Entity.curAnimationFrame e
  /\ Entity.imageName (Entity.setAnimation e) = Entity.imageName e
  /\ (forall gameTime animationFrameSpeed,
        Entity.animate applyCallback gameTime animationFrameSpeed (Entity.setAnimation e)
        = Entity.setAnimation e).
Proof.
  intros Hreg.
  assert (Heq : Entity.setAnimation e = Entity.set_curAnimation None e).
  { unfold Entity.setAnimation. rewrite Hreg. reflexivity. }
  rewrite Heq. repeat split.
Qed.

(** C6.  A non-looping animation [A,B,C] at frame index 0: two advances
    show C with the animation still current; the third advance does not
    touch the image, clears the current animation and then runs the
    callback, if there is one, exactly once; with the animation cleared,
    later advances do nothing.  A looping animation that runs past its last
    frame wraps to index 0 and stays current. *)
Theorem nextAnimationFrame_three_frames e (A B C : Img) (cb : option Callback)
    (t1 t2 t3 : number) :
  Entity.curAnimation e = Some (Animation.mk [A; B; C] false cb) ->
  Entity.curAnimationFrame e = 0 ->
  let e1 := Entity.nextAnimationFrame applyCallback t1 e in
  let e2 := Entity.nextAnimationFrame applyCallback t2 e1 in
  let e3 := Entity.nextAnimationFrame applyCallback t3 e2 in
  let finished :=
    Entity.set_curAnimation None
      (Entity.set_curAnimationFrame 3 (Entity.set_curAnimationFrameTime t3 e2)) in
  Entity.imageName e2 = Some C
  /\ Entity.curAnimation e2 = Some (Animation.mk [A; B; C] false cb)
  /\ Entity.imageName finished = Some C
  /\ Entity.curAnimation finished = None
  /\ e3 = match cb with
          | Some f => applyCallback f finished
          | None => finished
          end
  /\ (Entity.curAnimation e3 = None ->
      forall t4, Entity.nextAnimationFrame applyCallback t4 e3 = e3)
  /\ (forall l a t,
        Entity.curAnimation l = Some a ->
        Animation.getLooping a = true ->
        length (Animation.getImages a) <= S (Entity.curAnimationFrame l) ->
        let l' := Entity.nextAnimationFrame applyCallback t l in
        Entity.curAnimationFrame l' = 0
        /\ Entity.curAnimation l' = Some a
        /\ Entity.imageName l' = Animation.getImages a !! 0).
Proof.
  intros Hcur Hframe e1 e2 e3 finished.
  assert (H1 : e1 = Entity.set_imageName (Some B)
                 (Entity.set_curAnimationFrame 1 (Entity.set_curAnimationFrameTime t1 e))).
  { unfold e1. rewrite (nextAnimationFrame_inside e _ t1 Hcur); rewrite Hframe; cbn;
      [reflexivity | lia]. }
  assert (H2 : e2 = Entity.set_imageName (Some C)
                 (Entity.set_curAnimationFrame 2 (Entity.set_curAnimationFrameTime t2 e1))).
  { unfold e2. rewrite (nextAnimationFrame_inside e1 (Animation.mk [A; B; C] false cb) t2);
      rewrite H1; cbn; [reflexivity | assumption | lia]. }
  assert (Hcur2 : Entity.curAnimation e2 = Some (Animation.mk [A; B; C] false cb)).
  { rewrite H2, H1. cbn. assumption. }
  assert (Hframe2 : Entity.curAnimationFrame e2 = 2) by (rewrite H2; reflexivity).
  split; [rewrite H2; reflexivity |].
  split; [assumption |].
  split; [unfold finished; rewrite H2; reflexivity |].
  split; [reflexivity |].
  split.
  { unfold e3. rewrite (nextAnimationFrame_past_end e2 _ t3 Hcur2); rewrite ?Hframe2; cbn;
      [reflexivity .. | lia]. }
  split; [intros Hnone t4; now apply nextAnimationFrame_idle |].
  intros l a t Hl Hloop Hle l'. unfold l', Entity.nextAnimationFrame.
  rewrite Hl. cbn. apply Nat.leb_le in Hle. rewrite Hle, Hloop. cbn.
  repeat split. assumption.
Qed.

End EntityFacts.

(** A skier that crashes in mid-jump has no animation for its new tag. *)
Lemma setAnimation_unregistered_witness :
  Entity.curAnimation (Entity.setAnimation (Skier.crash jumpingSkier)) = None.
Proof.
  refine (proj1 (proj2
    (setAnimation_unregistered Skier.applyCallback (Skier.crash jumpingSkier) _))).
  vm_compute. reflexivity.
Defined.

(** C4, as first stated, fails: on that skier the jump animation is current
    before [setAnimation] and is not current after it. *)
Lemma setAnimation_unregistered_drops_animation :
  Entity.registeredAnimation (Skier.crash jumpingSkier) = None
  /\ Entity.curAnimation (Skier.crash jumpingSkier) = Some Skier.jumpAnimation
  /\ Entity.curAnimation (Entity.setAnimation (Skier.crash jumpingSkier))
     <> Entity.curAnimation (Skier.crash jumpingSkier).
Proof.
  split; [vm_compute; reflexivity |].
  split; [vm_compute; reflexivity |].
  vm_compute. discriminate.
Qed.

Lemma nextAnimationFrame_three_frames_witness :
  Entity.imageName
    (Entity.nextAnimationFrame Skier.applyCallback 200
       (Entity.nextAnimationFrame Skier.applyCallback 100 threeFrameSkier))
  = Some SKIER_JUMP3.
Proof.
  refine (proj1
    (nextAnimationFrame_three_frames Skier.applyCallback threeFrameSkier
       SKIER_JUMP1 SKIER_JUMP2 SKIER_JUMP3 (Some Skier.ContinueFromJump)
       100 200 300 _ _)).
  - vm_compute. reflexivity.
  - vm_compute. reflexivity.
Defined.

(** The callback of the counting entity has run once after the third
    advance, and still once after three more. *)
Example counter_called_once :
  let advance := Entity.nextAnimationFrame countCall in
  let two := advance 200%float (advance 100%float counter) in
  let three := advance 300%float two in
  let six := advance 600%float (advance 500%float (advance 400%float three)) in
  Entity.fields two = 0 /\ Entity.fields three = 1 /\ Entity.fields six = 1.
Proof. vm_compute. repeat split. Qed.

(** C5, as amended.  Both [getBounds] return null exactly when the current
    image is not loaded.  Otherwise the box is as wide as the image and
    centred on the position horizontally; its top edge is half the image
    height above the position; its bottom edge is at the position's [y] for
    the base class (the upper half of the image), and a quarter of the image
    height above the position's [y] for the skier. *)
Theorem getBounds_box :
  (forall (States Img Fields Callback : Type) `(Countable States)
      (imageManager : ImageManager Img) (e : Entity.t States Img Fields Callback),
      (Entity.getBounds imageManager e = None
       <-> getImage imageManager (Entity.imageName e) = None)
      /\ forall image, getImage imageManager (Entity.imageName e) = Some image ->
           Entity.getBounds imageManager e
           = Some (Rect.mk
               (Position.x (Entity.position e) - width image / 2)%float
               (Position.y (Entity.position e) - height image / 2)%float
               (Position.x (Entity.position e) + width image / 2)%float
               (Position.y (Entity.position e))))
  /\ (forall (imageManager : ImageManager IMAGE_NAMES) (s : Skier.t),
      (Skier.getBounds imageManager s = None
       <-> getImage imageManager (Entity.imageName s) = None)
      /\ forall image, getImage imageManager (Entity.imageName s) = Some image ->
           Skier.getBounds imageManager s
           = Some (Rect.mk
               (Position.x (Entity.position s) - width image / 2)%float
               (Position.y (Entity.position s) - height image / 2)%float
               (Position.x (Entity.position s) + width image / 2)%float
               (Position.y (Entity.position s) - height image / 4)%float)).
Proof.
  split.
  - intros States Img Fields Callback ? ? imageManager e. unfold Entity.getBounds.
    destruct (getImage imageManager (Entity.imageName e)) as [image|].
    + split; [split; discriminate |]. intros ? [= <-]. reflexivity.
    + split; [split; reflexivity |]. discriminate.
  - intros imageManager s. unfold Skier.getBounds.
    destruct (getImage imageManager (Entity.imageName s)) as [image|].
    + split; [split; discriminate |]. intros ? [= <-]. reflexivity.
    + split; [split; reflexivity |]. discriminate.
Qed.

Lemma getBounds_box_witness :
  Skier.getBounds allLoaded (Skier.new 0 0) = Some (Rect.mk (-10) (-20) 10 (-10)).
Proof.
  refine (proj2 (proj2 getBounds_box allLoaded (Skier.new 0 0)) (mkImage 20 40) _).
  vm_compute. reflexivity.
Defined.

(** C5, as first stated, fails.  With a 20 by 40 image, an obstacle at the
    origin has the box (-10, -20, 10, 0), not the centred box of the full
    image height (-10, -20, 10, 20); the skier at the origin has the box
    (-10, -20, 10, -10), not the box cut at three quarters of the height
    (-10, -20, 10, 10). *)
Lemma getBounds_not_centred :
  Entity.getBounds allLoaded treeAtStart = Some (Rect.mk (-10) (-20) 10 0)
  /\ centredBounds (Entity.position treeAtStart) (mkImage 20 40) = Rect.mk (-10) (-20) 10 20
  /\ Entity.getBounds allLoaded treeAtStart
     <> Some (centredBounds (Entity.position treeAtStart) (mkImage 20 40))
  /\ Skier.getBounds allLoaded (Skier.new 0 0) = Some (Rect.mk (-10) (-20) 10 (-10))
  /\ narrowedBounds (Entity.position (Skier.new 0 0)) (mkImage 20 40) = Rect.mk (-10) (-20) 10 10
  /\ Skier.getBounds allLoaded (Skier.new 0 0)
     <> Some (narrowedBounds (Entity.position (Skier.new 0 0)) (mkImage 20 40)).
Proof.
  split; [vm_compute; reflexivity |].
  split; [vm_compute; reflexivity |].
  split.
  { intros Heq. apply (f_equal (fun r => match r with
                                         | Some b => (Rect.bottom b <? 5)%float
                                         | None => false
                                         end)) in Heq.
    vm_compute in Heq. discriminate. }
  split; [vm_compute; reflexivity |].
  split; [vm_compute; reflexivity |].
  intros Heq. apply (f_equal (fun r => match r with
                                       | Some b => (Rect.bottom b <? 0)%float
                                       | None => false
                                       end)) in Heq.
  vm_compute in Heq. discriminate.
Qed.

(** ** Skier *)

Lemma isSkiing_state s : Skier.isSkiing s = true <-> Entity.state s = Some STATE_SKIING.
Proof. apply bool_decide_eq_true. Qed.

Lemma isJumping_state s : Skier.isJumping s = true <-> Entity.state s = Some STATE_JUMPING.
Proof. apply bool_decide_eq_true. Qed.

Lemma isCrashed_state s : Skier.isCrashed s = true <-> Entity.state s = Some STATE_CRASHED.
Proof. apply bool_decide_eq_true. Qed.

Lemma isDead_state s : Skier.isDead s = true <-> Entity.state s = Some STATE_DEAD.
Proof. apply bool_decide_eq_true. Qed.

Lemma DIRECTION_IMAGES_defined d :
  (Skier.DIRECTION_LEFT <= d <= Skier.DIRECTION_RIGHT)%Z ->
  is_Some (Skier.DIRECTION_IMAGES !! d).
Proof.
  unfold Skier.DIRECTION_LEFT, Skier.DIRECTION_RIGHT. intros Hd.
  assert (Hcases : d = 0%Z \/ d = 1%Z \/ d = 2%Z \/ d = 3%Z \/ d = 4%Z) by lia.
  destruct Hcases as [-> | [-> | [-> | [-> | ->]]]]; vm_compute; eauto.
Qed.

(** C7.  A crashed skier that turns left is first recovered (skiing again,
    at the starting speed, facing fully left, with the matching image) and
    then, facing fully left, moved one step of the starting speed to the
    left; the same to the right for [turnRight]. *)
Theorem turn_recovers_from_crash s :
  Skier.isCrashed s = true ->
  (Skier.turnLeft s = Skier.moveSkierLeft (Skier.recoverFromCrash Skier.DIRECTION_LEFT s)
   /\ Entity.state (Skier.turnLeft s) = Some STATE_SKIING
   /\ Skier.speed (Skier.turnLeft s) = Skier.STARTING_SPEED
   /\ Skier.direction (Skier.turnLeft s) = Skier.DIRECTION_LEFT
   /\ Entity.imageName (Skier.turnLeft s) = Some SKIER_LEFT
   /\ Entity.position (Skier.turnLeft s)
      = Position.mk (Position.x (Entity.position s) - Skier.STARTING_SPEED)%float
                    (Position.y (Entity.position s)))
  /\ (Skier.turnRight s = Skier.moveSkierRight (Skier.recoverFromCrash Skier.DIRECTION_RIGHT s)
   /\ Entity.state (Skier.turnRight s) = Some STATE_SKIING
   /\ Skier.speed (Skier.turnRight s) = Skier.STARTING_SPEED
   /\ Skier.direction (Skier.turnRight s) = Skier.DIRECTION_RIGHT
   /\ Entity.imageName (Skier.turnRight s) = Some SKIER_RIGHT
   /\ Entity.position (Skier.turnRight s)
      = Position.mk (Position.x (Entity.position s) + Skier.STARTING_SPEED)%float
                    (Position.y (Entity.position s))).
Proof.
  intros Hcrashed. apply isCrashed_state in Hcrashed.
  assert (Hleft : Skier.turnLeft s
                  = Skier.moveSkierLeft (Skier.recoverFromCrash Skier.DIRECTION_LEFT s)).
  { unfold Skier.turnLeft, Skier.isJumping, Skier.isCrashed. rewrite Hcrashed.
    settle_tests. cbn. settle_tests. reflexivity. }
  assert (Hright : Skier.turnRight s
                   = Skier.moveSkierRight (Skier.recoverFromCrash Skier.DIRECTION_RIGHT s)).
  { unfold Skier.turnRight, Skier.isJumping, Skier.isCrashed. rewrite Hcrashed.
    settle_tests. cbn. settle_tests. reflexivity. }
  rewrite Hleft, Hright. repeat split.
Qed.

Lemma turn_recovers_from_crash_witness :
  Entity.position (Skier.turnLeft (Skier.crash (Skier.new 0 0)))
  = Position.mk (0 - Skier.STARTING_SPEED)%float 0.
Proof.
  refine (proj2 (proj2 (proj2 (proj2 (proj2 (proj1
    (turn_recovers_from_crash (Skier.crash (Skier.new 0 0)) _))))))).
  vm_compute. reflexivity.
Defined.

(** C9.  [handleInput] answers true exactly when the code is one of the five
    keys and the skier is not dead; for any other code, and for any code on
    a dead skier, it answers false and the skier is as it was.  (No path of
    the handler throws: every call has a result.) *)
Theorem handleInput_handled (KEYS : KEYS.t) (inputCode : string) (s : Skier.t) :
  let recognised :=
    inputCode = KEYS.LEFT KEYS \/ inputCode = KEYS.RIGHT KEYS
    \/ inputCode = KEYS.UP KEYS \/ inputCode = KEYS.DOWN KEYS
    \/ inputCode = KEYS.SPACE KEYS in
  (fst (Skier.handleInput KEYS inputCode s) = true
   <-> recognised /\ Skier.isDead s = false)
  /\ (~ recognised \/ Skier.isDead s = true ->
      Skier.handleInput KEYS inputCode s = (false, s)).
Proof.
  intros recognised. unfold recognised, Skier.handleInput.
  destruct (Skier.isDead s).
  { split; [split; [discriminate | intros [_ ?]; discriminate] | reflexivity]. }
  destruct (String.eqb_spec inputCode (KEYS.LEFT KEYS)) as [H1|H1];
    [cbn; split; [tauto | intros [? | ?]; [tauto | discriminate]] |].
  destruct (String.eqb_spec inputCode (KEYS.RIGHT KEYS)) as [H2|H2];
    [cbn; split; [tauto | intros [? | ?]; [tauto | discriminate]] |].
  destruct (String.eqb_spec inputCode (KEYS.UP KEYS)) as [H3|H3];
    [cbn; split; [tauto | intros [? | ?]; [tauto | discriminate]] |].
  destruct (String.eqb_spec inputCode (KEYS.DOWN KEYS)) as [H4|H4];
    [cbn; split; [tauto | intros [? | ?]; [tauto | discriminate]] |].
  destruct (String.eqb_spec inputCode (KEYS.SPACE KEYS)) as [H5|H5];
    [cbn; split; [tauto | intros [? | ?]; [tauto | discriminate]] |].
  cbn. split; [| reflexivity].
  split; [discriminate | tauto].
Qed.

Lemma handleInput_handled_witness :
  Skier.handleInput sampleKeys "Enter" (Skier.new 0 0) = (false, Skier.new 0 0).
Proof.
  refine (proj2 (handleInput_handled sampleKeys "Enter" (Skier.new 0 0)) _).
  left. vm_compute. intros [H | [H | [H | [H | H]]]]; discriminate H.
Defined.

(** *** What each method leaves alone *)

Lemma keeps_refl s : keeps s s.
Proof. split; auto. Qed.

Lemma keeps_trans s1 s2 s3 : keeps s1 s2 -> keeps s2 s3 -> keeps s1 s3.
Proof. intros [Ha Hd] [Ha' Hd']. split; [congruence | auto]. Qed.

Lemma keeps_continueFromJump s : keeps s (Skier.continueFromJump s).
Proof. unfold_skier. keeps_by_cases. Qed.

Lemma keeps_applyCallback cb s : keeps s (Skier.applyCallback cb s).
Proof. destruct cb. apply keeps_continueFromJump. Qed.

Lemma keeps_turnLeft s : keeps s (Skier.turnLeft s).
Proof. unfold_skier. keeps_by_cases. Qed.

Lemma keeps_turnRight s : keeps s (Skier.turnRight s).
Proof. unfold_skier. keeps_by_cases. Qed.

Lemma keeps_turnUp s : keeps s (Skier.turnUp s).
Proof. unfold_skier. keeps_by_cases. Qed.

Lemma keeps_turnDown s : keeps s (Skier.turnDown s).
Proof. unfold_skier. keeps_by_cases. Qed.

Lemma keeps_jump s : keeps s (Skier.jump s).
Proof. unfold_skier. keeps_by_cases. Qed.

Lemma keeps_crash s : keeps s (Skier.crash s).
Proof. unfold_skier. keeps_by_cases. Qed.

Lemma keeps_die s : keeps s (Skier.die s).
Proof. unfold_skier. keeps_by_cases. Qed.

Lemma keeps_set_speed v s : keeps s (Skier.set_speed v s).
Proof. keeps_by_cases. Qed.

Lemma keeps_move DIAGONAL_SPEED_REDUCER s : keeps s (Skier.move DIAGONAL_SPEED_REDUCER s).
Proof. unfold_skier. keeps_by_cases. Qed.

Lemma keeps_checkIfHitObstacle imageManager obstacleManager s :
  keeps s (Skier.checkIfHitObstacle imageManager obstacleManager s).
Proof.
  unfold Skier.checkIfHitObstacle.
  destruct (Skier.getBounds imageManager s); [| apply keeps_refl].
  cbn. destruct (find _ _); [apply keeps_jump |].
  destruct (find _ _); [apply keeps_crash | apply keeps_refl].
Qed.

Lemma keeps_animate gameTime animationFrameSpeed s :
  keeps s (Entity.animate Skier.applyCallback gameTime animationFrameSpeed s).
Proof.
  unfold Entity.animate, Entity.nextAnimationFrame, Entity.finishAnimation.
  destruct (Entity.curAnimation s) as [a|] eqn:Hcur; [| apply keeps_refl].
  destruct (_ <? _)%float; [| apply keeps_refl].
  cbn. rewrite Hcur.
  destruct (_ && _).
  - destruct (Animation.getCallback a) as [cb|].
    + eapply keeps_trans; [| apply keeps_applyCallback]. split; auto.
    + split; auto.
  - destruct (_ <=? _)%nat; split; auto.
Qed.

Lemma keeps_update DIAGONAL_SPEED_REDUCER imageManager obstacleManager gameTime s :
  keeps s (Skier.update DIAGONAL_SPEED_REDUCER imageManager obstacleManager gameTime s).
Proof.
  unfold Skier.update. eapply keeps_trans; [| apply keeps_animate].
  destruct (_ || _); [| apply keeps_refl].
  eapply keeps_trans; [apply keeps_move | apply keeps_checkIfHitObstacle].
Qed.

Lemma keeps_handleInput KEYS inputCode s :
  keeps s (snd (Skier.handleInput KEYS inputCode s)).
Proof.
  unfold Skier.handleInput.
  repeat match goal with |- context [if ?b then _ else _] => destruct b end; cbn;
    auto using keeps_refl, keeps_turnLeft, keeps_turnRight, keeps_turnUp,
      keeps_turnDown, keeps_jump.
Qed.

Lemma keeps_perform KEYS DIAGONAL_SPEED_REDUCER c s :
  keeps s (Skier.perform KEYS DIAGONAL_SPEED_REDUCER s c).
Proof.
  destruct c; cbn;
    auto using keeps_update, keeps_handleInput, keeps_die, keeps_set_speed.
Qed.

Lemma keeps_run KEYS DIAGONAL_SPEED_REDUCER calls s :
  keeps s (Skier.run KEYS DIAGONAL_SPEED_REDUCER calls s).
Proof.
  unfold Skier.run. revert s.
  induction calls as [| c calls IH]; intros s; cbn; [apply keeps_refl |].
  eapply keeps_trans; [apply keeps_perform | apply IH].
Qed.

(** Every skier the game can reach has the animation table its constructor
    built. *)
Lemma reachable_animations KEYS DIAGONAL_SPEED_REDUCER calls x y :
  Entity.animations (Skier.run KEYS DIAGONAL_SPEED_REDUCER calls (Skier.new x y)) !! STATE_JUMPING
  = Some Skier.jumpAnimation.
Proof.
  destruct (keeps_run KEYS DIAGONAL_SPEED_REDUCER calls (Skier.new x y)) as [-> _].
  reflexivity.
Qed.

(** C10.  The heading starts at straight-down and, whatever calls the game
    makes, stays one of the five headings, for which the image table has an
    entry.  Each input and each frame update keeps a valid heading valid;
    [turnLeft] leaves a fully-left heading fully left and otherwise steps it
    down by one, [turnRight] mirrors it, and [turnDown] sets straight-down
    (all three do nothing to the heading of a jumping skier, and [turnDown]
    nothing to a crashed one). *)
Theorem direction_stays_valid (KEYS : KEYS.t) (DIAGONAL_SPEED_REDUCER x y : number)
    (calls : list Skier.call) :
  Skier.direction (Skier.new x y) = Skier.DIRECTION_DOWN
  /\ validDirection (Skier.run KEYS DIAGONAL_SPEED_REDUCER calls (Skier.new x y))
  /\ is_Some (Skier.DIRECTION_IMAGES
                !! Skier.direction (Skier.run KEYS DIAGONAL_SPEED_REDUCER calls (Skier.new x y)))
  /\ (forall s inputCode,
        validDirection s -> validDirection (snd (Skier.handleInput KEYS inputCode s)))
  /\ (forall s imageManager obstacleManager gameTime,
        validDirection s ->
        validDirection
          (Skier.update DIAGONAL_SPEED_REDUCER imageManager obstacleManager gameTime s))
  /\ (forall s, Skier.direction s = Skier.DIRECTION_LEFT ->
        Skier.direction (Skier.turnLeft s) = Skier.DIRECTION_LEFT)
  /\ (forall s, Skier.direction s = Skier.DIRECTION_RIGHT ->
        Skier.direction (Skier.turnRight s) = Skier.DIRECTION_RIGHT)
  /\ (forall s, Skier.isJumping s = false -> Skier.isCrashed s = false ->
        Skier.direction s <> Skier.DIRECTION_LEFT ->
        Skier.direction (Skier.turnLeft s) = (Skier.direction s - 1)%Z)
  /\ (forall s, Skier.isJumping s = false -> Skier.isCrashed s = false ->
        Skier.direction s <> Skier.DIRECTION_RIGHT ->
        Skier.direction (Skier.turnRight s) = (Skier.direction s + 1)%Z)
  /\ (forall s, Skier.isJumping s = false -> Skier.isCrashed s = false ->
        Skier.direction (Skier.turnDown s) = Skier.DIRECTION_DOWN)
  /\ (forall s, Skier.isJumping s = true \/ Skier.isCrashed s = true ->
        Skier.turnDown s = s).
Proof.
  assert (Hvalid : validDirection (Skier.run KEYS DIAGONAL_SPEED_REDUCER calls (Skier.new x y))).
  { apply (keeps_run KEYS DIAGONAL_SPEED_REDUCER calls (Skier.new x y)).
    unfold validDirection. cbn. unfold Skier.DIRECTION_LEFT, Skier.DIRECTION_DOWN,
      Skier.DIRECTION_RIGHT. lia. }
  split; [reflexivity |].
  split; [assumption |].
  split; [apply DIRECTION_IMAGES_defined, Hvalid |].
  split; [intros s inputCode; apply keeps_handleInput |].
  split; [intros s imageManager obstacleManager gameTime; apply keeps_update |].
  split.
  { intros s Hd. unfold Skier.turnLeft.
    destruct (Skier.isJumping s); cbn; [assumption |].
    destruct (Skier.isCrashed s); cbn; [settle_tests; reflexivity |].
    rewrite Hd. settle_tests. cbn. assumption. }
  split.
  { intros s Hd. unfold Skier.turnRight.
    destruct (Skier.isJumping s); cbn; [assumption |].
    destruct (Skier.isCrashed s); cbn; [settle_tests; reflexivity |].
    rewrite Hd. settle_tests. cbn. assumption. }
  split.
  { intros s Hj Hc Hd. unfold Skier.turnLeft. rewrite Hj, Hc. cbn.
    settle_tests. reflexivity. }
  split.
  { intros s Hj Hc Hd. unfold Skier.turnRight. rewrite Hj, Hc. cbn.
    settle_tests. reflexivity. }
  split.
  { intros s Hj Hc. unfold Skier.turnDown. rewrite Hj, Hc. reflexivity. }
  intros s [Hj | Hc]; unfold Skier.turnDown.
  - rewrite Hj. reflexivity.
  - rewrite Hc. destruct (Skier.isJumping s); reflexivity.
Qed.

Lemma direction_stays_valid_witness :
  validDirection
    (snd (Skier.handleInput sampleKeys "ArrowLeft"
            (snd (Skier.handleInput sampleKeys "ArrowLeft" (Skier.new 0 0))))).
Proof.
  refine (proj1 (proj2 (proj2 (proj2
    (direction_stays_valid sampleKeys sampleReducer 0 0 []))))
    (snd (Skier.handleInput sampleKeys "ArrowLeft" (Skier.new 0 0))) "ArrowLeft" _).
  vm_compute. split; discriminate.
Defined.

(** *** Collisions *)

Lemma jumpRampPredicate_spec imageManager skierBounds obstacle :
  Skier.jumpRampPredicate imageManager skierBounds obstacle
  = overlaps imageManager skierBounds obstacle && isJumpRamp obstacle.
Proof.
  unfold Skier.jumpRampPredicate, overlaps, isJumpRamp, Skier.isJumpRampCollision.
  destruct (Entity.getBounds imageManager obstacle); [| reflexivity].
  cbn. destruct (intersectTwoRects _ _), (bool_decide _); reflexivity.
Qed.

Lemma normalPredicate_spec imageManager s skierBounds obstacle :
  Skier.normalPredicate imageManager s skierBounds obstacle
  = overlaps imageManager skierBounds obstacle
    && negb (isRock obstacle && Skier.isJumping s).
Proof.
  unfold Skier.normalPredicate, overlaps, isRock, Skier.isRockJumpCollision, Skier.isJumping.
  destruct (Entity.getBounds imageManager obstacle); [| reflexivity].
  cbn. destruct (intersectTwoRects _ _); cbn; [| reflexivity].
  destruct (_ || _), (bool_decide (Entity.state s = _)); reflexivity.
Qed.

(** A skiing skier that jumps is jumping, at the first frame of the jump
    animation; nothing else changes. *)
Lemma jump_from_skiing s :
  Skier.isSkiing s = true ->
  Entity.animations s !! STATE_JUMPING = Some Skier.jumpAnimation ->
  Skier.jump s
  = Entity.set_imageName (Some SKIER_JUMP1)
      (Entity.set_curAnimationFrame 0
         (Entity.set_curAnimation (Some Skier.jumpAnimation)
            (Entity.set_state (Some STATE_JUMPING) s))).
Proof.
  intros Hski Hreg. apply isSkiing_state in Hski.
  unfold Skier.jump, Skier.isCrashed, Skier.isJumping. rewrite Hski. settle_tests.
  cbn. unfold Entity.setAnimation, Entity.registeredAnimation. cbn. rewrite Hreg.
  reflexivity.
Qed.

(** C2.  A skiing skier whose box (its image being loaded) meets a jump ramp
    among the active obstacles leaves [checkIfHitObstacle] jumping, with the
    jump animation current at its first frame; whatever else its box meets,
    it has not crashed: speed, heading and position are as before. *)
Theorem ramp_takes_priority imageManager obstacleManager s skierBounds :
  Skier.isSkiing s = true ->
  Entity.animations s !! STATE_JUMPING = Some Skier.jumpAnimation ->
  Skier.getBounds imageManager s = Some skierBounds ->
  (exists ramp, In ramp (getObstacles obstacleManager)
                /\ overlaps imageManager skierBounds ramp = true
                /\ isJumpRamp ramp = true) ->
  let s' := Skier.checkIfHitObstacle imageManager obstacleManager s in
  s' = Skier.jump s
  /\ Entity.state s' = Some STATE_JUMPING
  /\ Entity.curAnimation s' = Some Skier.jumpAnimation
  /\ Entity.curAnimationFrame s' = 0
  /\ Entity.imageName s' = Some SKIER_JUMP1
  /\ Skier.speed s' = Skier.speed s
  /\ Skier.direction s' = Skier.direction s
  /\ Entity.position s' = Entity.position s.
Proof.
  intros Hski Hreg Hbounds (ramp & Hin & Hover & Hramp) s'.
  assert (Hjump : s' = Skier.jump s).
  { unfold s', Skier.checkIfHitObstacle. rewrite Hbounds. cbn.
    destruct (find _ _) eqn:Hfind; [reflexivity |].
    apply (find_none _ _ Hfind) in Hin.
    rewrite jumpRampPredicate_spec, Hover, Hramp in Hin. discriminate. }
  rewrite Hjump, (jump_from_skiing s Hski Hreg). repeat split.
Qed.

Lemma ramp_takes_priority_witness :
  Entity.state
    (Skier.checkIfHitObstacle allLoaded [treeAtStart; rampAtStart] (Skier.new 0 0))
  = Some STATE_JUMPING.
Proof.
  refine (proj1 (proj2
    (ramp_takes_priority allLoaded [treeAtStart; rampAtStart] (Skier.new 0 0)
       (Rect.mk (-10) (-20) 10 (-10)) _ _ _ _))).
  - vm_compute. reflexivity.
  - vm_compute. reflexivity.
  - vm_compute. reflexivity.
  - exists rampAtStart. split; [right; left; reflexivity |].
    split; vm_compute; reflexivity.
Defined.

(** C3.  With the skier's image loaded and no jump ramp under its box: a
    jumping skier whose box meets nothing but rocks leaves
    [checkIfHitObstacle] as it entered it; a skier whose box meets an
    obstacle that is not a rock, or any obstacle while it is not jumping,
    leaves it crashed, at speed 0, showing the crash image. *)
Theorem normal_pass imageManager obstacleManager s skierBounds :
  Skier.getBounds imageManager s = Some skierBounds ->
  (forall o, In o (getObstacles obstacleManager) ->
             overlaps imageManager skierBounds o = true -> isJumpRamp o = false) ->
  (Skier.isJumping s = true ->
   (forall o, In o (getObstacles obstacleManager) ->
              overlaps imageManager skierBounds o = true -> isRock o = true) ->
   Skier.checkIfHitObstacle imageManager obstacleManager s = s)
  /\ ((exists o, In o (getObstacles obstacleManager)
                 /\ overlaps imageManager skierBounds o = true
                 /\ (isRock o = false \/ Skier.isJumping s = false)) ->
      let s' := Skier.checkIfHitObstacle imageManager obstacleManager s in
      s' = Skier.crash s
      /\ Entity.state s' = Some STATE_CRASHED
      /\ Skier.speed s' = 0%float
      /\ Entity.imageName s' = Some SKIER_CRASH).
Proof.
  intros Hbounds Hnoramp.
  assert (Hfirst : find (Skier.jumpRampPredicate imageManager skierBounds)
                     (getObstacles obstacleManager) = None).
  { destruct (find _ _) as [o|] eqn:Hfind; [| reflexivity].
    apply find_some in Hfind as [Hin Hp].
    rewrite jumpRampPredicate_spec in Hp. apply andb_prop in Hp as [Hover Hramp].
    rewrite (Hnoramp o Hin Hover) in Hramp. discriminate. }
  split.
  - intros Hjump Hrocks. unfold Skier.checkIfHitObstacle. rewrite Hbounds. cbn.
    rewrite Hfirst.
    destruct (find (Skier.normalPredicate _ _ _) _) as [o|] eqn:Hfind; [| reflexivity].
    apply find_some in Hfind as [Hin Hp].
    rewrite normalPredicate_spec in Hp. apply andb_prop in Hp as [Hover Hp].
    rewrite (Hrocks o Hin Hover), Hjump in Hp. discriminate.
  - intros (o & Hin & Hover & Hother) s'.
    assert (Hcrash : s' = Skier.crash s).
    { unfold s', Skier.checkIfHitObstacle. rewrite Hbounds. cbn. rewrite Hfirst.
      destruct (find (Skier.normalPredicate _ _ _) _) eqn:Hfind; [reflexivity |].
      apply (find_none _ _ Hfind) in Hin.
      rewrite normalPredicate_spec, Hover in Hin.
      destruct Hother as [Hrock | Hjump];
        [rewrite Hrock in Hin | rewrite Hjump, andb_false_r in Hin]; discriminate. }
    rewrite Hcrash. repeat split.
Qed.

Lemma normal_pass_witness :
  Skier.checkIfHitObstacle allLoaded [rockAtStart] jumpingSkier = jumpingSkier.
Proof.
  refine (proj1
    (normal_pass allLoaded [rockAtStart] jumpingSkier (Rect.mk (-10) (-20) 10 (-10)) _ _)
    _ _).
  - vm_compute. reflexivity.
  - intros o [<- | []] _. vm_compute. reflexivity.
  - vm_compute. reflexivity.
  - intros o [<- | []] _. vm_compute. reflexivity.
Defined.

(** *** The dead state *)

(** A dead skier with no animation running is left as it is by a frame
    update and by an input, and so stays dead whatever the game calls. *)
Lemma update_dead_idle DIAGONAL_SPEED_REDUCER imageManager obstacleManager gameTime s :
  Entity.state s = Some STATE_DEAD ->
  Entity.curAnimation s = None ->
  Skier.update DIAGONAL_SPEED_REDUCER imageManager obstacleManager gameTime s = s.
Proof.
  intros Hdead Hidle. unfold Skier.update, Skier.isSkiing, Skier.isJumping.
  rewrite Hdead. settle_tests. cbn. now apply animate_idle.
Qed.

Lemma handleInput_dead KEYS inputCode s :
  Entity.state s = Some STATE_DEAD ->
  Skier.handleInput KEYS inputCode s = (false, s).
Proof.
  intros Hdead. unfold Skier.handleInput, Skier.isDead. rewrite Hdead.
  settle_tests. reflexivity.
Qed.

Lemma dead_and_idle_stays_dead KEYS DIAGONAL_SPEED_REDUCER calls s :
  Entity.state s = Some STATE_DEAD ->
  Entity.curAnimation s = None ->
  Entity.state (Skier.run KEYS DIAGONAL_SPEED_REDUCER calls s) = Some STATE_DEAD.
Proof.
  unfold Skier.run. revert s.
  induction calls as [| c calls IH]; intros s Hdead Hidle; [assumption |].
  change (fold_left (Skier.perform KEYS DIAGONAL_SPEED_REDUCER) (c :: calls) s)
    with (fold_left (Skier.perform KEYS DIAGONAL_SPEED_REDUCER) calls
            (Skier.perform KEYS DIAGONAL_SPEED_REDUCER s c)).
  destruct c as [imageManager obstacleManager gameTime | inputCode | | v];
    unfold Skier.perform.
  - rewrite update_dead_idle by assumption. now apply IH.
  - rewrite handleInput_dead by assumption. now apply IH.
  - apply IH; [reflexivity | assumption].
  - apply IH; assumption.
Qed.

(** C1 does not hold of the code.  The skier jumps (space bar), is killed in
    mid-jump, and the frames go on: [die] leaves the jump animation current,
    [update] still advances it, and at its end the callback
    [continueFromJump] puts the skier back to skiing at the starting speed.
    The frame after that, the skier moves. *)
Theorem dead_skier_skis_again :
  let dead :=
    Skier.run sampleKeys sampleReducer
      [Skier.HandleInput "Space"; Skier.Die] (Skier.new 0 0) in
  let frames :=
    [Skier.Update allLoaded [] 100; Skier.Update allLoaded [] 200;
     Skier.Update allLoaded [] 300; Skier.Update allLoaded [] 400;
     Skier.Update allLoaded [] 500] in
  let later := Skier.run sampleKeys sampleReducer frames dead in
  Skier.isDead dead = true
  /\ Entity.curAnimation dead = Some Skier.jumpAnimation
  /\ Entity.state later = Some STATE_SKIING
  /\ Skier.speed later = Skier.STARTING_SPEED
  /\ Entity.position later = Position.mk 0 0
  /\ Entity.position
       (Skier.run sampleKeys sampleReducer [Skier.Update allLoaded [] 600] later)
     = Position.mk 0 5.
Proof. vm_compute. repeat split. Qed.

(** ** Game *)

Section GameFacts.
Context {RStates RImg RRest RCallback : Type} `{Countable RStates}.
Variable STARTING_SPEED_RHINO : number.

Implicit Types g : Game.t RStates RImg RRest RCallback.

(** C8.  [togglePause] flips the flag; on pausing it sets the skier's and
    the rhino's speed to 0, on resuming to their starting speeds; both
    entities are otherwise as they were (state tag, position, image,
    animation, heading) and so is the rest of the game.  From a running
    game, two toggles leave both speeds at their starting values. *)
Theorem togglePause_only_speeds g :
  let g' := Game.togglePause STARTING_SPEED_RHINO g in
  Game.paused g' = negb (Game.paused g)
  /\ Skier.speed (Game.skier g')
     = (if Game.paused g then Game.STARTING_SPEED_SKIER else 0%float)
  /\ Rhino.speed (Game.rhino g')
     = (if Game.paused g then STARTING_SPEED_RHINO else 0%float)
  /\ Game.skier g' = Skier.set_speed (Skier.speed (Game.skier g')) (Game.skier g)
  /\ Game.rhino g' = Rhino.set_speed (Rhino.speed (Game.rhino g')) (Game.rhino g)
  /\ Entity.state (Game.skier g') = Entity.state (Game.skier g)
  /\ Entity.position (Game.skier g') = Entity.position (Game.skier g)
  /\ Entity.state (Game.rhino g') = Entity.state (Game.rhino g)
  /\ Entity.position (Game.rhino g') = Entity.position (Game.rhino g)
  /\ Game.gameWindow g' = Game.gameWindow g
  /\ Game.gameTime g' = Game.gameTime g
  /\ Game.imageManager g' = Game.imageManager g
  /\ Game.obstacleManager g' = Game.obstacleManager g
  /\ (Game.paused g = false ->
      let g'' := Game.togglePause STARTING_SPEED_RHINO g' in
      Game.paused g'' = false
      /\ Skier.speed (Game.skier g'') = Game.STARTING_SPEED_SKIER
      /\ Rhino.speed (Game.rhino g'') = STARTING_SPEED_RHINO
      /\ Entity.state (Game.skier g'') = Entity.state (Game.skier g)
      /\ Entity.position (Game.skier g'') = Entity.position (Game.skier g)
      /\ Entity.state (Game.rhino g'') = Entity.state (Game.rhino g)
      /\ Entity.position (Game.rhino g'') = Entity.position (Game.rhino g)).
Proof.
  intros g'. unfold g', Game.togglePause.
  destruct g as [w t im om p s r]. destruct p; cbn; repeat split.
  all: congruence.
Qed.

End GameFacts.

Lemma togglePause_only_speeds_witness :
  Skier.speed (Game.skier (Game.togglePause 10 (Game.togglePause 10 sampleGame)))
  = Game.STARTING_SPEED_SKIER.
Proof.
  destruct (togglePause_only_speeds 10 sampleGame)
    as (_ & _ & _ & _ & _ & _ & _ & _ & _ & _ & _ & _ & _ & Htwice).
  destruct (Htwice eq_refl) as (_ & Hspeed & _). exact Hspeed.
Defined.

(** * Further properties *)

(** ** Entity: animations of any length *)

Section AnimationFacts.
Context {States Img Fields Callback : Type} `{Countable States}.
Variable applyCallback :
  Callback -> Entity.t States Img Fields Callback -> Entity.t States Img Fields Callback.

Implicit Types e : Entity.t States Img Fields Callback.

Lemma advanceFrames_cons gameTime times e :
  advanceFrames applyCallback (gameTime :: times) e
  = advanceFrames applyCallback times (Entity.nextAnimationFrame applyCallback gameTime e).
Proof. reflexivity. Qed.

(** An advance of a looping animation never ends it: the index steps, or
    wraps to 0 past the last frame. *)
Lemma nextAnimationFrame_looping e a gameTime :
  Entity.curAnimation e = Some a ->
  Animation.getLooping a = true ->
  Entity.curAnimationFrame e < length (Animation.getImages a) ->
  Entity.nextAnimationFrame applyCallback gameTime e
  = let next := S (Entity.curAnimationFrame e) mod length (Animation.getImages a) in
    Entity.set_imageName (Animation.getImages a !! next)
      (Entity.set_curAnimationFrame next
         (Entity.set_curAnimationFrameTime gameTime e)).
Proof.
  intros Hcur Hloop Hlt. unfold Entity.nextAnimationFrame. rewrite Hcur. cbn.
  rewrite Hloop, andb_false_r.
  destruct (Nat.leb_spec (length (Animation.getImages a)) (S (Entity.curAnimationFrame e)))
    as [Hle | Hin].
  - assert (Hend : S (Entity.curAnimationFrame e) = length (Animation.getImages a)) by lia.
    rewrite Hend, Nat.Div0.mod_same. reflexivity.
  - rewrite (Nat.mod_small _ _ Hin). reflexivity.
Qed.

(** While frames are left, each advance shows the next one; nothing but the
    frame clock and the image changes. *)
Lemma advanceFrames_inside times : forall e a,
  Entity.curAnimation e = Some a ->
  Entity.curAnimationFrame e + length times < length (Animation.getImages a) ->
  let e' := advanceFrames applyCallback times e in
  Entity.curAnimation e' = Some a
  /\ Entity.curAnimationFrame e' = Entity.curAnimationFrame e + length times
  /\ (times <> [] ->
      Entity.imageName e'
      = Animation.getImages a !! (Entity.curAnimationFrame e + length times))
  /\ Entity.state e' = Entity.state e
  /\ Entity.position e' = Entity.position e
  /\ Entity.animations e' = Entity.animations e
  /\ Entity.fields e' = Entity.fields e.
Proof.
  induction times as [| gameTime times IH]; intros e a Hcur Hlt.
  - cbn. rewrite Nat.add_0_r. repeat split; congruence.
  - cbn [length] in Hlt. rewrite advanceFrames_cons.
    rewrite (nextAnimationFrame_inside applyCallback e a gameTime Hcur) by lia.
    set (e1 := Entity.set_imageName _ _).
    destruct (IH e1 a) as (Hc & Hf & Hi & Hs & Hp & Ha & Hx);
      [exact Hcur | cbn; lia |].
    cbn [length]. split; [exact Hc |].
    split; [rewrite Hf; cbn; lia |].
    split.
    { intros _. destruct times as [| t' times'].
      - cbn. rewrite Nat.add_1_r. reflexivity.
      - rewrite Hi by discriminate. cbn. f_equal. lia. }
    repeat split; assumption.
Qed.


(** X17.  A looping animation with its index inside the frames never ends:
    after any number of advances it is still current, the index is the
    start index plus the number of advances modulo the number of frames, the
    image is the frame at that index, and state tag and subclass fields are
    untouched (no callback has run). *)
Theorem looping_animation_cycles times : forall e a,
  Entity.curAnimation e = Some a ->
  Animation.getLooping a = true ->
  Entity.curAnimationFrame e < length (Animation.getImages a) ->
  let e' := advanceFrames applyCallback times e in
  Entity.curAnimation e' = Some a
  /\ Entity.curAnimationFrame e'
     = (Entity.curAnimationFrame e + length times) mod length (Animation.getImages a)
  /\ (times <> [] ->
      Entity.imageName e' = Animation.getImages a !! Entity.curAnimationFrame e')
  /\ Entity.state e' = Entity.state e
  /\ Entity.fields e' = Entity.fields e.
Proof.
  induction times as [| gameTime times IH]; intros e a Hcur Hloop Hlt.
  - cbn. rewrite Nat.add_0_r, (Nat.mod_small _ _ Hlt). repeat split; congruence.
  - rewrite advanceFrames_cons.
    rewrite (nextAnimationFrame_looping e a gameTime Hcur Hloop Hlt). cbn zeta.
    set (next := S (Entity.curAnimationFrame e) mod length (Animation.getImages a)).
    set (e1 := Entity.set_imageName _ _).
    assert (Hnext : next < length (Animation.getImages a))
      by (apply Nat.mod_upper_bound; lia).
    destruct (IH e1 a) as (Hc & Hf & Hi & Hs & Hx); [exact Hcur | exact Hloop | exact Hnext |].
    split; [exact Hc |].
    split.
    { rewrite Hf. cbn [length]. change (Entity.curAnimationFrame e1) with next.
      unfold next. rewrite Nat.Div0.add_mod_idemp_l. f_equal. lia. }
    split.
    { intros _. destruct times as [| t' times'].
      - reflexivity.
      - apply Hi. discriminate. }
    split; assumption.
Qed.

End AnimationFacts.


Lemma looping_animation_cycles_witness :
  Entity.curAnimationFrame (advanceFrames countCall [100; 200; 300]%float loopingCounter) = 1.
Proof.
  refine (proj1 (proj2
    (looping_animation_cycles countCall [100; 200; 300]%float loopingCounter
       (Animation.mk [TREE; TREE_CLUSTER] true (Some tt)) _ _ _))).
  - vm_compute. reflexivity.
  - reflexivity.
  - vm_compute. lia.
Defined.

(** ** Skier: frames, collisions, inputs *)

(** *** Where a frame moves the skier *)

Lemma position_jump s : Entity.position (Skier.jump s) = Entity.position s.
Proof.
  unfold Skier.jump, Entity.setAnimation.
  destruct (_ || _); [reflexivity |]. cbn.
  destruct (Entity.animations s !! STATE_JUMPING);
    reflexivity.
Qed.

Lemma position_checkIfHitObstacle imageManager obstacleManager s :
  Entity.position (Skier.checkIfHitObstacle imageManager obstacleManager s)
  = Entity.position s.
Proof.
  unfold Skier.checkIfHitObstacle.
  destruct (Skier.getBounds imageManager s); [| reflexivity].
  cbn. destruct (find _ _); [apply position_jump |].
  destruct (find _ _); reflexivity.
Qed.

Lemma position_animate gameTime animationFrameSpeed s :
  Entity.position (Entity.animate Skier.applyCallback gameTime animationFrameSpeed s)
  = Entity.position s.
Proof.
  unfold Entity.animate, Entity.nextAnimationFrame, Entity.finishAnimation.
  destruct (Entity.curAnimation s) as [a|] eqn:Hcur; [| reflexivity].
  destruct (_ <? _)%float; [| reflexivity].
  cbn. rewrite Hcur.
  destruct (_ && _).
  - destruct (Animation.getCallback a) as [[]|]; reflexivity.
  - destruct (_ <=? _)%nat; reflexivity.
Qed.

Lemma position_update DIAGONAL_SPEED_REDUCER imageManager obstacleManager gameTime s :
  Entity.position
    (Skier.update DIAGONAL_SPEED_REDUCER imageManager obstacleManager gameTime s)
  = Entity.position
      (if Skier.isSkiing s || Skier.isJumping s
       then Skier.move DIAGONAL_SPEED_REDUCER s else s).
Proof.
  unfold Skier.update. rewrite position_animate.
  destruct (_ || _); [apply position_checkIfHitObstacle | reflexivity].
Qed.

(** X1.  A frame update never moves a skier that is crashed or dead, nor one
    that faces fully left or fully right, whatever it hits and whatever its
    animation does. *)
Theorem update_stays_put DIAGONAL_SPEED_REDUCER imageManager obstacleManager gameTime s :
  Skier.isCrashed s = true \/ Skier.isDead s = true
  \/ Skier.direction s = Skier.DIRECTION_LEFT
  \/ Skier.direction s = Skier.DIRECTION_RIGHT ->
  Entity.position
    (Skier.update DIAGONAL_SPEED_REDUCER imageManager obstacleManager gameTime s)
  = Entity.position s.
Proof.
  intros Hcase. rewrite position_update.
  destruct Hcase as [Hc | [Hd | [Hl | Hr]]].
  - apply isCrashed_state in Hc. unfold Skier.isSkiing, Skier.isJumping.
    rewrite Hc. settle_tests. reflexivity.
  - apply isDead_state in Hd. unfold Skier.isSkiing, Skier.isJumping.
    rewrite Hd. settle_tests. reflexivity.
  - destruct (_ || _); [| reflexivity].
    unfold Skier.move. rewrite Hl. settle_tests. reflexivity.
  - destruct (_ || _); [| reflexivity].
    unfold Skier.move. rewrite Hr. settle_tests. reflexivity.
Qed.

Lemma update_stays_put_witness :
  Entity.position
    (Skier.update sampleReducer allLoaded [treeAtStart] 100 (Skier.crash (Skier.new 0 0)))
  = Entity.position (Skier.crash (Skier.new 0 0)).
Proof.
  apply (update_stays_put sampleReducer allLoaded [treeAtStart] 100
           (Skier.crash (Skier.new 0 0))).
  left. vm_compute. reflexivity.
Defined.

(** X2.  A frame update displaces a skiing or jumping skier by exactly the
    step of its heading, computed from the speed it had on entry, whatever
    it hits on the way and whatever its animation does: [speed] down for
    straight-down, [speed / DIAGONAL_SPEED_REDUCER] down and as much to the
    side for the diagonals.  A crash in that frame does not undo the move. *)
Theorem update_displacement DIAGONAL_SPEED_REDUCER imageManager obstacleManager gameTime s :
  Skier.isSkiing s = true \/ Skier.isJumping s = true ->
  let x := Position.x (Entity.position s) in
  let y := Position.y (Entity.position s) in
  let step := (Skier.speed s / DIAGONAL_SPEED_REDUCER)%float in
  let s' := Skier.update DIAGONAL_SPEED_REDUCER imageManager obstacleManager gameTime s in
  (Skier.direction s = Skier.DIRECTION_DOWN ->
   Entity.position s' = Position.mk x (y + Skier.speed s)%float)
  /\ (Skier.direction s = Skier.DIRECTION_LEFT_DOWN ->
      Entity.position s' = Position.mk (x - step)%float (y + step)%float)
  /\ (Skier.direction s = Skier.DIRECTION_RIGHT_DOWN ->
      Entity.position s' = Position.mk (x + step)%float (y + step)%float).
Proof.
  intros Hstate x y step s'. unfold s'. rewrite position_update.
  assert (Hgo : Skier.isSkiing s || Skier.isJumping s = true)
    by (destruct Hstate as [-> | ->]; [reflexivity | apply orb_true_r]).
  rewrite Hgo. unfold Skier.move.
  repeat split; intros Hd; rewrite Hd; settle_tests; reflexivity.
Qed.

Lemma update_displacement_witness :
  Entity.position (Skier.update sampleReducer allLoaded [treeAtStart] 100 (Skier.new 0 0))
  = Position.mk 0 (0 + Skier.STARTING_SPEED)%float.
Proof.
  refine (proj1 (update_displacement sampleReducer allLoaded [treeAtStart] 100
                   (Skier.new 0 0) _) _).
  - left. vm_compute. reflexivity.
  - reflexivity.
Defined.

(** *** Collisions, the other cases *)

(** X3.  [checkIfHitObstacle] leaves the skier as it is when the skier's
    image is not loaded, when no obstacle overlaps its box, when there is no
    obstacle at all, and when no obstacle's image is loaded. *)
Theorem checkIfHitObstacle_nothing_hit imageManager obstacleManager s :
  (Skier.getBounds imageManager s = None ->
   Skier.checkIfHitObstacle imageManager obstacleManager s = s)
  /\ (forall skierBounds,
        Skier.getBounds imageManager s = Some skierBounds ->
        (forall o, In o (getObstacles obstacleManager) ->
                   overlaps imageManager skierBounds o = false) ->
        Skier.checkIfHitObstacle imageManager obstacleManager s = s)
  /\ (getObstacles obstacleManager = [] ->
      Skier.checkIfHitObstacle imageManager obstacleManager s = s)
  /\ ((forall o, In o (getObstacles obstacleManager) ->
                 getImage imageManager (Entity.imageName o) = None) ->
      Skier.checkIfHitObstacle imageManager obstacleManager s = s).
Proof.
  assert (Hfree : forall skierBounds,
            Skier.getBounds imageManager s = Some skierBounds ->
            (forall o, In o (getObstacles obstacleManager) ->
                       overlaps imageManager skierBounds o = false) ->
            Skier.checkIfHitObstacle imageManager obstacleManager s = s).
  { intros skierBounds Hbounds Hnone. unfold Skier.checkIfHitObstacle.
    rewrite Hbounds. cbn.
    destruct (find (Skier.jumpRampPredicate _ _) _) as [o|] eqn:Hramp.
    { apply find_some in Hramp as [Hin Hp].
      rewrite jumpRampPredicate_spec, (Hnone o Hin) in Hp. discriminate. }
    destruct (find (Skier.normalPredicate _ _ _) _) as [o|] eqn:Hnormal; [| reflexivity].
    apply find_some in Hnormal as [Hin Hp].
    rewrite normalPredicate_spec, (Hnone o Hin) in Hp. discriminate. }
  split.
  { intros Hbounds. unfold Skier.checkIfHitObstacle. rewrite Hbounds. reflexivity. }
  split; [exact Hfree |].
  split.
  { intros Hempty. destruct (Skier.getBounds imageManager s) as [skierBounds|] eqn:Hbounds.
    - apply (Hfree skierBounds eq_refl). rewrite Hempty. intros o [].
    - unfold Skier.checkIfHitObstacle. rewrite Hbounds. reflexivity. }
  intros Hunloaded. destruct (Skier.getBounds imageManager s) as [skierBounds|] eqn:Hbounds.
  - apply (Hfree skierBounds eq_refl). intros o Hin. unfold overlaps, Entity.getBounds.
    rewrite (Hunloaded o Hin). reflexivity.
  - unfold Skier.checkIfHitObstacle. rewrite Hbounds. reflexivity.
Qed.

Lemma checkIfHitObstacle_nothing_hit_witness :
  Skier.checkIfHitObstacle allLoaded [] (Skier.new 0 0) = Skier.new 0 0.
Proof.
  refine (proj1 (proj2 (proj2
    (checkIfHitObstacle_nothing_hit allLoaded [] (Skier.new 0 0)))) _).
  reflexivity.
Defined.

(** X4.  A jumping skier whose box meets a jump ramp leaves
    [checkIfHitObstacle] unchanged even if its box also meets a tree: the
    ramp pass returns before the crash pass is run. *)
Theorem ramp_shields_jumping_skier imageManager obstacleManager s skierBounds :
  Skier.isJumping s = true ->
  Skier.getBounds imageManager s = Some skierBounds ->
  (exists ramp, In ramp (getObstacles obstacleManager)
                /\ overlaps imageManager skierBounds ramp = true
                /\ isJumpRamp ramp = true) ->
  Skier.checkIfHitObstacle imageManager obstacleManager s = s.
Proof.
  intros Hjump Hbounds (ramp & Hin & Hover & Hramp).
  unfold Skier.checkIfHitObstacle. rewrite Hbounds. cbn.
  destruct (find _ _) eqn:Hfind.
  - unfold Skier.jump. rewrite Hjump, orb_true_r. reflexivity.
  - apply (find_none _ _ Hfind) in Hin.
    rewrite jumpRampPredicate_spec, Hover, Hramp in Hin. discriminate.
Qed.

Lemma ramp_shields_jumping_skier_witness :
  Skier.checkIfHitObstacle allLoaded [treeAtStart; rampAtStart] jumpingSkier = jumpingSkier.
Proof.
  apply (ramp_shields_jumping_skier allLoaded [treeAtStart; rampAtStart] jumpingSkier
           (Rect.mk (-10) (-20) 10 (-10))).
  - vm_compute. reflexivity.
  - vm_compute. reflexivity.
  - exists rampAtStart. split; [right; left; reflexivity |].
    split; vm_compute; reflexivity.
Defined.

(** X5.  [checkIfHitObstacle] gives back the skier itself, the skier after
    [jump], or the skier after [crash]; in every case position, heading,
    animation table and frame clock are as before. *)
Theorem checkIfHitObstacle_outcomes imageManager obstacleManager s :
  let s' := Skier.checkIfHitObstacle imageManager obstacleManager s in
  (s' = s \/ s' = Skier.jump s \/ s' = Skier.crash s)
  /\ Entity.position s' = Entity.position s
  /\ Skier.direction s' = Skier.direction s
  /\ Entity.animations s' = Entity.animations s
  /\ Entity.curAnimationFrameTime s' = Entity.curAnimationFrameTime s.
Proof.
  intros s'.
  assert (Hcases : s' = s \/ s' = Skier.jump s \/ s' = Skier.crash s).
  { unfold s', Skier.checkIfHitObstacle.
    destruct (Skier.getBounds imageManager s); [| auto].
    cbn. destruct (find _ _); [auto |]. destruct (find _ _); auto. }
  split; [exact Hcases |].
  destruct Hcases as [-> | [-> | ->]]; try (repeat split; reflexivity).
  unfold Skier.jump, Entity.setAnimation.
  destruct (_ || _); [repeat split; reflexivity |]. cbn.
  destruct (Entity.animations s !! STATE_JUMPING);
    repeat split; reflexivity.
Qed.

(** *** Inputs, the other cases *)

(** What [handleInput] answers. *)
Lemma handleInput_answer KEYS inputCode s :
  fst (Skier.handleInput KEYS inputCode s)
  = negb (Skier.isDead s)
    && (String.eqb inputCode (KEYS.LEFT KEYS) || String.eqb inputCode (KEYS.RIGHT KEYS)
        || String.eqb inputCode (KEYS.UP KEYS) || String.eqb inputCode (KEYS.DOWN KEYS)
        || String.eqb inputCode (KEYS.SPACE KEYS)).
Proof.
  unfold Skier.handleInput.
  destruct (Skier.isDead s); [reflexivity |].
  repeat match goal with |- context [String.eqb ?a ?b] => destruct (String.eqb a b) end;
    reflexivity.
Qed.

(** X6.  While the skier is jumping every input leaves it exactly as it
    is (the five keys are still reported as handled): each of the four turns
    and [jump] gives the skier back. *)
Theorem handleInput_while_jumping KEYS inputCode s :
  Skier.isJumping s = true ->
  snd (Skier.handleInput KEYS inputCode s) = s
  /\ Skier.turnLeft s = s /\ Skier.turnRight s = s /\ Skier.turnUp s = s
  /\ Skier.turnDown s = s /\ Skier.jump s = s.
Proof.
  intros Hjump.
  assert (Hturns : Skier.turnLeft s = s /\ Skier.turnRight s = s /\ Skier.turnUp s = s
                   /\ Skier.turnDown s = s /\ Skier.jump s = s).
  { unfold Skier.turnLeft, Skier.turnRight, Skier.turnUp, Skier.turnDown, Skier.jump.
    rewrite Hjump, orb_true_r. repeat split. }
  split; [| exact Hturns].
  destruct Hturns as (Hl & Hr & Hu & Hd & Hj).
  unfold Skier.handleInput.
  repeat match goal with |- context [if ?b then _ else _] => destruct b end; cbn;
    congruence.
Qed.

Lemma handleInput_while_jumping_witness :
  snd (Skier.handleInput sampleKeys "ArrowLeft" jumpingSkier) = jumpingSkier.
Proof.
  refine (proj1 (handleInput_while_jumping sampleKeys "ArrowLeft" jumpingSkier _)).
  vm_compute. reflexivity.
Defined.

(** X7.  While the skier is crashed, any input other than the left and
    right keys leaves it exactly as it is: up, down and jump do nothing. *)
Theorem handleInput_while_crashed KEYS inputCode s :
  Skier.isCrashed s = true ->
  inputCode <> KEYS.LEFT KEYS ->
  inputCode <> KEYS.RIGHT KEYS ->
  snd (Skier.handleInput KEYS inputCode s) = s
  /\ Skier.turnUp s = s /\ Skier.turnDown s = s /\ Skier.jump s = s.
Proof.
  intros Hcrashed Hleft Hright.
  assert (Hturns : Skier.turnUp s = s /\ Skier.turnDown s = s /\ Skier.jump s = s).
  { unfold Skier.turnUp, Skier.turnDown, Skier.jump. rewrite Hcrashed.
    destruct (Skier.isJumping s); repeat split. }
  split; [| exact Hturns].
  destruct Hturns as (Hu & Hd & Hj).
  unfold Skier.handleInput.
  apply String.eqb_neq in Hleft, Hright. rewrite Hleft, Hright.
  repeat match goal with |- context [if ?b then _ else _] => destruct b end; cbn;
    congruence.
Qed.

Lemma handleInput_while_crashed_witness :
  snd (Skier.handleInput sampleKeys "ArrowDown" (Skier.crash (Skier.new 0 0)))
  = Skier.crash (Skier.new 0 0).
Proof.
  refine (proj1 (handleInput_while_crashed sampleKeys "ArrowDown"
                   (Skier.crash (Skier.new 0 0)) _ _ _)).
  - vm_compute. reflexivity.
  - discriminate.
  - discriminate.
Defined.

Lemma set_direction_same s : Skier.set_direction (Skier.direction s) s = s.
Proof. destruct s as [? ? ? ? ? ? ? []]. reflexivity. Qed.

(** X8.  For a skier that is neither jumping nor crashed and does not face
    fully left, a left turn followed by a right turn is the skier with the
    image of its heading: heading, position, state and speed are as before. *)
Theorem turn_left_then_right s :
  Skier.isJumping s = false ->
  Skier.isCrashed s = false ->
  (Skier.DIRECTION_LEFT < Skier.direction s <= Skier.DIRECTION_RIGHT)%Z ->
  Skier.turnRight (Skier.turnLeft s) = Skier.setDirectionalImage s
  /\ Skier.direction (Skier.turnRight (Skier.turnLeft s)) = Skier.direction s
  /\ Entity.position (Skier.turnRight (Skier.turnLeft s)) = Entity.position s
  /\ Entity.state (Skier.turnRight (Skier.turnLeft s)) = Entity.state s
  /\ Skier.speed (Skier.turnRight (Skier.turnLeft s)) = Skier.speed s.
Proof.
  unfold Skier.DIRECTION_LEFT, Skier.DIRECTION_RIGHT. intros Hjump Hcrashed Hd.
  assert (Hleft : Skier.turnLeft s = Skier.setDirection (Skier.direction s - 1) s).
  { unfold Skier.turnLeft. rewrite Hjump, Hcrashed. cbn.
    unfold Skier.DIRECTION_LEFT. settle_tests. reflexivity. }
  assert (Hround : Skier.turnRight (Skier.turnLeft s) = Skier.setDirectionalImage s).
  { rewrite Hleft. unfold Skier.turnRight.
    change (Skier.isJumping (Skier.setDirection (Skier.direction s - 1) s))
      with (Skier.isJumping s).
    change (Skier.isCrashed (Skier.setDirection (Skier.direction s - 1) s))
      with (Skier.isCrashed s).
    rewrite Hjump, Hcrashed. cbn [negb].
    change (Skier.direction (Skier.setDirection (Skier.direction s - 1) s))
      with (Skier.direction s - 1)%Z.
    unfold Skier.DIRECTION_RIGHT. settle_tests.
    replace (Skier.direction s - 1 + 1)%Z with (Skier.direction s) by lia.
    rewrite <- (set_direction_same s) at 3.
    destruct s as [? ? ? ? ? ? ? []]. reflexivity. }
  rewrite Hround. repeat split.
Qed.

Lemma turn_left_then_right_witness :
  Skier.direction (Skier.turnRight (Skier.turnLeft (Skier.new 0 0)))
  = Skier.direction (Skier.new 0 0).
Proof.
  refine (proj1 (proj2 (turn_left_then_right (Skier.new 0 0) _ _ _))).
  - vm_compute. reflexivity.
  - vm_compute. reflexivity.
  - vm_compute. split; [reflexivity | discriminate].
Defined.

(** *** The jump, from take-off to landing *)

Lemma advanceFrames_position times : forall s,
  Entity.position (advanceFrames Skier.applyCallback times s) = Entity.position s.
Proof.
  induction times as [| gameTime times IH]; intros s; [reflexivity |].
  rewrite advanceFrames_cons, IH.
  unfold Entity.nextAnimationFrame, Entity.finishAnimation.
  destruct (Entity.curAnimation s) as [a|] eqn:Hcur; [| reflexivity].
  cbn. rewrite Hcur. destruct (_ && _).
  - destruct (Animation.getCallback a) as [[]|]; reflexivity.
  - destruct (_ <=? _)%nat; reflexivity.
Qed.

(** X9.  When the jump animation is current at frame f, the next 4 - f
    advances keep the state tag, the speed and the animation, ending on the
    image SKIER_JUMP5; the advance after them lands: skiing, at the starting
    speed, facing straight down with the image SKIER_DOWN, no animation
    current, position unchanged.  This holds whatever the state tag and the
    speed were meanwhile (jumping, but also crashed, dead or paused). *)
Theorem jump_animation_lands s times gameTime :
  Entity.curAnimation s = Some Skier.jumpAnimation ->
  Entity.curAnimationFrame s + length times = 4 ->
  let airborne := advanceFrames Skier.applyCallback times s in
  let landed := Entity.nextAnimationFrame Skier.applyCallback gameTime airborne in
  Entity.state airborne = Entity.state s
  /\ Skier.speed airborne = Skier.speed s
  /\ Entity.curAnimation airborne = Some Skier.jumpAnimation
  /\ (times <> [] -> Entity.imageName airborne = Some SKIER_JUMP5)
  /\ Entity.state landed = Some STATE_SKIING
  /\ Skier.speed landed = Skier.STARTING_SPEED
  /\ Skier.direction landed = Skier.DIRECTION_DOWN
  /\ Entity.imageName landed = Some SKIER_DOWN
  /\ Entity.curAnimation landed = None
  /\ Entity.position landed = Entity.position s.
Proof.
  intros Hcur Hframes airborne landed.
  destruct (advanceFrames_inside Skier.applyCallback times s Skier.jumpAnimation Hcur)
    as (Hc & Hf & Hi & Hs & Hp & _ & Hx); [cbn; lia |].
  fold airborne in Hc, Hf, Hi, Hs, Hp, Hx.
  assert (Hland : landed
                  = Skier.continueFromJump
                      (Entity.set_curAnimation None
                         (Entity.set_curAnimationFrame 5
                            (Entity.set_curAnimationFrameTime gameTime airborne)))).
  { unfold landed.
    rewrite (nextAnimationFrame_past_end Skier.applyCallback airborne
               Skier.jumpAnimation gameTime Hc eq_refl) by (rewrite Hf; cbn; lia).
    cbn. rewrite Hf, Hframes. reflexivity. }
  split; [exact Hs |].
  split; [unfold Skier.speed; rewrite Hx; reflexivity |].
  split; [exact Hc |].
  split; [intros Hne; rewrite (Hi Hne), Hframes; reflexivity |].
  rewrite Hland. repeat split. cbn. exact Hp.
Qed.

Lemma jump_animation_lands_witness :
  Entity.state
    (Entity.nextAnimationFrame Skier.applyCallback 500
       (advanceFrames Skier.applyCallback [100; 200; 300; 400]%float jumpingSkier))
  = Some STATE_SKIING.
Proof.
  refine (proj1 (proj2 (proj2 (proj2 (proj2
    (jump_animation_lands jumpingSkier [100; 200; 300; 400]%float 500 _ _)))))).
  - vm_compute. reflexivity.
  - vm_compute. reflexivity.
Defined.

(** *** What holds of every skier the game reaches *)

Lemma showsImage_same_display s s' :
  Entity.imageName s' = Entity.imageName s ->
  Entity.curAnimation s' = Entity.curAnimation s ->
  Entity.curAnimationFrame s' = Entity.curAnimationFrame s ->
  showsImage s -> showsImage s'.
Proof. unfold showsImage. intros -> -> ->. auto. Qed.

Lemma showsImage_setDirection d s :
  (Skier.DIRECTION_LEFT <= d <= Skier.DIRECTION_RIGHT)%Z ->
  showsImage s -> showsImage (Skier.setDirection d s).
Proof.
  intros Hd [_ Hanim]. split; [| exact Hanim].
  apply (DIRECTION_IMAGES_defined d Hd).
Qed.

Lemma showsImage_recoverFromCrash d s :
  (Skier.DIRECTION_LEFT <= d <= Skier.DIRECTION_RIGHT)%Z ->
  showsImage s -> showsImage (Skier.recoverFromCrash d s).
Proof.
  intros Hd [_ Hanim]. split; [| exact Hanim].
  apply (DIRECTION_IMAGES_defined d Hd).
Qed.

Lemma showsImage_turnLeft s :
  validDirection s -> showsImage s -> showsImage (Skier.turnLeft s).
Proof.
  unfold validDirection, Skier.turnLeft, Skier.DIRECTION_LEFT, Skier.DIRECTION_RIGHT.
  intros Hd Hs. destruct (Skier.isJumping s); cbn; [exact Hs |].
  destruct (Skier.isCrashed s).
  - settle_tests.
    apply (showsImage_same_display (Skier.recoverFromCrash 0 s)); try reflexivity.
    apply showsImage_recoverFromCrash; [| exact Hs].
    unfold Skier.DIRECTION_LEFT, Skier.DIRECTION_RIGHT. lia.
  - case_bool_decide as Hleft.
    + revert Hs. apply showsImage_same_display; reflexivity.
    + apply showsImage_setDirection; [| exact Hs].
      unfold Skier.DIRECTION_LEFT, Skier.DIRECTION_RIGHT. lia.
Qed.

Lemma showsImage_turnRight s :
  validDirection s -> showsImage s -> showsImage (Skier.turnRight s).
Proof.
  unfold validDirection, Skier.turnRight, Skier.DIRECTION_LEFT, Skier.DIRECTION_RIGHT.
  intros Hd Hs. destruct (Skier.isJumping s); cbn; [exact Hs |].
  destruct (Skier.isCrashed s).
  - settle_tests.
    apply (showsImage_same_display (Skier.recoverFromCrash 4 s)); try reflexivity.
    apply showsImage_recoverFromCrash; [| exact Hs].
    unfold Skier.DIRECTION_LEFT, Skier.DIRECTION_RIGHT. lia.
  - case_bool_decide as Hright.
    + revert Hs. apply showsImage_same_display; reflexivity.
    + apply showsImage_setDirection; [| exact Hs].
      unfold Skier.DIRECTION_LEFT, Skier.DIRECTION_RIGHT. lia.
Qed.

Lemma showsImage_turnUp s : showsImage s -> showsImage (Skier.turnUp s).
Proof.
  unfold Skier.turnUp. intros Hs.
  destruct (Skier.isJumping s); cbn; [exact Hs |].
  destruct (Skier.isCrashed s); [exact Hs |].
  destruct (_ || _); [| exact Hs].
  revert Hs. apply showsImage_same_display; reflexivity.
Qed.

Lemma showsImage_turnDown s : showsImage s -> showsImage (Skier.turnDown s).
Proof.
  unfold Skier.turnDown. intros Hs.
  destruct (Skier.isJumping s); cbn; [exact Hs |].
  destruct (Skier.isCrashed s); [exact Hs |].
  apply showsImage_setDirection; [| exact Hs].
  unfold Skier.DIRECTION_LEFT, Skier.DIRECTION_DOWN, Skier.DIRECTION_RIGHT. lia.
Qed.

Lemma showsImage_jump s :
  Entity.animations s !! STATE_JUMPING = Some Skier.jumpAnimation ->
  showsImage s -> showsImage (Skier.jump s).
Proof.
  intros Hreg Hs. unfold Skier.jump. destruct (_ || _); [exact Hs |].
  unfold Entity.setAnimation, Entity.registeredAnimation. cbn. rewrite Hreg.
  split; [cbn; eauto |]. right. split; [reflexivity | cbn; lia].
Qed.

Lemma showsImage_crash s : showsImage s -> showsImage (Skier.crash s).
Proof. intros [_ Hanim]. split; [cbn; eauto | exact Hanim]. Qed.

Lemma showsImage_move DIAGONAL_SPEED_REDUCER s :
  showsImage s -> showsImage (Skier.move DIAGONAL_SPEED_REDUCER s).
Proof.
  unfold Skier.move.
  repeat case_bool_decide; apply showsImage_same_display; reflexivity.
Qed.

Lemma showsImage_checkIfHitObstacle imageManager obstacleManager s :
  Entity.animations s !! STATE_JUMPING = Some Skier.jumpAnimation ->
  showsImage s -> showsImage (Skier.checkIfHitObstacle imageManager obstacleManager s).
Proof.
  intros Hreg Hs. unfold Skier.checkIfHitObstacle.
  destruct (Skier.getBounds imageManager s); [| exact Hs].
  cbn. destruct (find _ _); [now apply showsImage_jump |].
  destruct (find _ _); [now apply showsImage_crash | exact Hs].
Qed.

Lemma showsImage_animate gameTime animationFrameSpeed s :
  showsImage s ->
  showsImage (Entity.animate Skier.applyCallback gameTime animationFrameSpeed s).
Proof.
  intros Hs. unfold Entity.animate.
  destruct (Entity.curAnimation s) as [a|] eqn:Hcur; [| exact Hs].
  destruct (_ <? _)%float; [| exact Hs].
  destruct Hs as [Himg [Hnone | [Hjump Hframe]]]; [congruence |].
  cbn in Hframe.
  destruct (Nat.lt_ge_cases (S (Entity.curAnimationFrame s)) 5) as [Hin | Hend].
  - rewrite (nextAnimationFrame_inside Skier.applyCallback s Skier.jumpAnimation
               gameTime Hjump Hin).
    split.
    + cbn. apply lookup_lt_is_Some. cbn. lia.
    + right. split; [exact Hjump | cbn; lia].
  - rewrite (nextAnimationFrame_past_end Skier.applyCallback s Skier.jumpAnimation
               gameTime Hjump eq_refl Hend).
    split; [cbn; eauto | left; reflexivity].
Qed.

(** The three facts go together along a run. *)
Lemma perform_well_formed KEYS DIAGONAL_SPEED_REDUCER c s :
  validDirection s ->
  Entity.animations s !! STATE_JUMPING = Some Skier.jumpAnimation ->
  showsImage s ->
  showsImage (Skier.perform KEYS DIAGONAL_SPEED_REDUCER s c).
Proof.
  intros Hvalid Hreg Hs.
  destruct c as [imageManager obstacleManager gameTime | inputCode | | v]; cbn.
  - unfold Skier.update. apply showsImage_animate.
    destruct (_ || _); [| exact Hs].
    apply showsImage_checkIfHitObstacle.
    + destruct (keeps_move DIAGONAL_SPEED_REDUCER s) as [-> _]. exact Hreg.
    + now apply showsImage_move.
  - unfold Skier.handleInput.
    repeat match goal with |- context [if ?b then _ else _] => destruct b end; cbn;
      auto using showsImage_turnLeft, showsImage_turnRight, showsImage_turnUp,
        showsImage_turnDown, showsImage_jump.
  - revert Hs. apply showsImage_same_display; reflexivity.
  - revert Hs. apply showsImage_same_display; reflexivity.
Qed.

(** X10.  Whatever calls the game makes on a new skier, its image name is
    defined, and its current animation is either none or the jump animation
    with the frame index below 5. *)
Theorem reachable_skier_shows_image KEYS DIAGONAL_SPEED_REDUCER calls x y :
  let s := Skier.run KEYS DIAGONAL_SPEED_REDUCER calls (Skier.new x y) in
  is_Some (Entity.imageName s)
  /\ (Entity.curAnimation s = None
      \/ Entity.curAnimation s = Some Skier.jumpAnimation
         /\ Entity.curAnimationFrame s < length Skier.IMAGES_JUMPING).
Proof.
  cbv zeta. change (showsImage (Skier.run KEYS DIAGONAL_SPEED_REDUCER calls (Skier.new x y))).
  assert (Hstart : validDirection (Skier.new x y)
                   /\ Entity.animations (Skier.new x y) !! STATE_JUMPING
                      = Some Skier.jumpAnimation
                   /\ showsImage (Skier.new x y)).
  { split; [unfold validDirection; cbn; unfold Skier.DIRECTION_LEFT, Skier.DIRECTION_DOWN,
              Skier.DIRECTION_RIGHT; lia |].
    split; [reflexivity |].
    split; [cbn; eauto | left; reflexivity]. }
  revert Hstart. generalize (Skier.new x y). unfold Skier.run.
  induction calls as [| c calls IH]; intros s (Hvalid & Hreg & Hs); [exact Hs |].
  cbn [fold_left]. apply IH.
  destruct (keeps_perform KEYS DIAGONAL_SPEED_REDUCER c s) as [Hanims Hdir].
  split; [auto |]. split; [rewrite Hanims; exact Hreg |].
  now apply perform_well_formed.
Qed.

(** Prove a fact about the state tag or the speed by cases on the tests of
    the method. *)
Ltac by_method_cases :=
  unfold alive, stoppedOrStarting; unfold_skier;
  repeat first [case_bool_decide | case_match];
  unfold Skier.set_x, Skier.set_y, Skier.set_speed, Skier.set_direction, Skier.speed in *;
  cbn in *; intuition congruence.

Lemma speed_perform KEYS DIAGONAL_SPEED_REDUCER c s :
  pauseAssignment c ->
  stoppedOrStarting (Skier.speed s) ->
  stoppedOrStarting (Skier.speed (Skier.perform KEYS DIAGONAL_SPEED_REDUCER s c)).
Proof.
  intros Hc Hs.
  assert (Hjump : stoppedOrStarting (Skier.speed (Skier.jump s))) by by_method_cases.
  assert (Hcrash : stoppedOrStarting (Skier.speed (Skier.crash s))) by by_method_cases.
  destruct c as [imageManager obstacleManager gameTime | inputCode | | v]; cbn.
  - unfold Skier.update.
    set (s1 := if _ || _ then _ else s).
    assert (H1 : stoppedOrStarting (Skier.speed s1)).
    { unfold s1. destruct (_ || _); [| exact Hs].
      assert (Hmove : stoppedOrStarting (Skier.speed (Skier.move DIAGONAL_SPEED_REDUCER s)))
        by by_method_cases.
      revert Hmove. generalize (Skier.move DIAGONAL_SPEED_REDUCER s). intros m Hm.
      unfold Skier.checkIfHitObstacle.
      destruct (Skier.getBounds imageManager m); [| exact Hm].
      cbn. destruct (find _ _); [clear -Hm; by_method_cases |].
      destruct (find _ _); [clear; by_method_cases | exact Hm]. }
    revert H1. generalize s1. clear. intros s Hs.
    unfold Entity.animate, Entity.nextAnimationFrame, Entity.finishAnimation.
    destruct (Entity.curAnimation s) as [a|] eqn:Hcur; [| exact Hs].
    destruct (_ <? _)%float; [| exact Hs].
    cbn. rewrite Hcur. destruct (_ && _).
    + destruct (Animation.getCallback a) as [[]|]; [right; reflexivity | exact Hs].
    + destruct (_ <=? _)%nat; exact Hs.
  - unfold Skier.handleInput.
    repeat match goal with |- context [if ?b then _ else _] => destruct b end; cbn;
      try exact Hs; clear -Hs; by_method_cases.
  - left. reflexivity.
  - exact Hc.
Qed.

(** X11.  Whatever calls the game makes on a new skier, the speed
    assignments among them being the pause toggle's (0 or the starting
    speed), the skier's speed is 0 or the starting speed. *)
Theorem reachable_speed KEYS DIAGONAL_SPEED_REDUCER calls x y :
  Forall pauseAssignment calls ->
  let s := Skier.run KEYS DIAGONAL_SPEED_REDUCER calls (Skier.new x y) in
  Skier.speed s = 0%float \/ Skier.speed s = Skier.STARTING_SPEED.
Proof.
  intros Hcalls. cbv zeta.
  assert (Hstart : stoppedOrStarting (Skier.speed (Skier.new x y))) by (right; reflexivity).
  revert Hstart. generalize (Skier.new x y). unfold Skier.run.
  induction Hcalls as [| c calls Hc _ IH]; intros s Hs; [exact Hs |].
  cbn [fold_left]. apply IH. now apply speed_perform.
Qed.

Lemma reachable_speed_witness :
  Skier.speed
    (Skier.run sampleKeys sampleReducer
       [Skier.HandleInput "Space"; Skier.SetSpeed 0; Skier.Update allLoaded [] 100]
       (Skier.new 0 0)) = 0%float
  \/ Skier.speed
       (Skier.run sampleKeys sampleReducer
          [Skier.HandleInput "Space"; Skier.SetSpeed 0; Skier.Update allLoaded [] 100]
          (Skier.new 0 0)) = Skier.STARTING_SPEED.
Proof.
  apply (reachable_speed sampleKeys sampleReducer
           [Skier.HandleInput "Space"; Skier.SetSpeed 0; Skier.Update allLoaded [] 100] 0 0).
  repeat constructor.
Defined.

Lemma alive_perform KEYS DIAGONAL_SPEED_REDUCER c s :
  notDie c -> alive s -> alive (Skier.perform KEYS DIAGONAL_SPEED_REDUCER s c).
Proof.
  intros Hc Hs.
  destruct c as [imageManager obstacleManager gameTime | inputCode | | v]; cbn.
  - unfold Skier.update.
    set (s1 := if _ || _ then _ else s).
    assert (H1 : alive s1).
    { unfold s1. destruct (_ || _); [| exact Hs].
      assert (Hmove : alive (Skier.move DIAGONAL_SPEED_REDUCER s)) by by_method_cases.
      revert Hmove. generalize (Skier.move DIAGONAL_SPEED_REDUCER s). intros m Hm.
      unfold Skier.checkIfHitObstacle.
      destruct (Skier.getBounds imageManager m); [| exact Hm].
      cbn. destruct (find _ _); [clear -Hm; by_method_cases |].
      destruct (find _ _); [clear; by_method_cases | exact Hm]. }
    revert H1. generalize s1. clear. intros s Hs.
    unfold Entity.animate, Entity.nextAnimationFrame, Entity.finishAnimation.
    destruct (Entity.curAnimation s) as [a|] eqn:Hcur; [| exact Hs].
    destruct (_ <? _)%float; [| exact Hs].
    cbn. rewrite Hcur. destruct (_ && _).
    + destruct (Animation.getCallback a) as [[]|]; [left; reflexivity | exact Hs].
    + destruct (_ <=? _)%nat; exact Hs.
  - unfold Skier.handleInput.
    repeat match goal with |- context [if ?b then _ else _] => destruct b end; cbn;
      try exact Hs; clear -Hs; by_method_cases.
  - destruct Hc.
  - exact Hs.
Qed.

(** X12.  Only [die] kills: after any calls on a new skier none of which
    is [die], the skier is skiing, jumping or crashed, not dead. *)
Theorem only_die_kills KEYS DIAGONAL_SPEED_REDUCER calls x y :
  Forall notDie calls ->
  let s := Skier.run KEYS DIAGONAL_SPEED_REDUCER calls (Skier.new x y) in
  Skier.isDead s = false
  /\ (Entity.state s = Some STATE_SKIING
      \/ Entity.state s = Some STATE_JUMPING
      \/ Entity.state s = Some STATE_CRASHED).
Proof.
  intros Hcalls. cbv zeta.
  assert (Halive : alive (Skier.run KEYS DIAGONAL_SPEED_REDUCER calls (Skier.new x y))).
  { assert (Hstart : alive (Skier.new x y)) by (left; reflexivity).
    revert Hstart. generalize (Skier.new x y). unfold Skier.run.
    induction Hcalls as [| c calls Hc _ IH]; intros s Hs; [exact Hs |].
    cbn [fold_left]. apply IH. now apply alive_perform. }
  split; [| exact Halive].
  unfold Skier.isDead. destruct Halive as [-> | [-> | ->]]; settle_tests; reflexivity.
Qed.

Lemma only_die_kills_witness :
  Skier.isDead
    (Skier.run sampleKeys sampleReducer
       [Skier.Update allLoaded [treeAtStart] 100; Skier.HandleInput "ArrowLeft"]
       (Skier.new 0 0)) = false.
Proof.
  refine (proj1 (only_die_kills sampleKeys sampleReducer
                   [Skier.Update allLoaded [treeAtStart] 100; Skier.HandleInput "ArrowLeft"]
                   0 0 _)).
  repeat constructor.
Defined.

(** ** Drawing *)

(** X13.  A dead skier is not drawn, whatever is loaded, though it keeps
    its bounding box; a skier that is not dead is drawn as any entity: exactly
    when its image is loaded, which is exactly when it has a bounding box,
    with the loaded image at its own size, and the box's left and top edges
    are where the image is drawn. *)
Theorem draw_and_bounds (imageManager : ImageManager IMAGE_NAMES) (s : Skier.t) :
  (Skier.isDead s = true -> Skier.draw imageManager s = None)
  /\ (Skier.isDead s = false -> Skier.draw imageManager s = Entity.draw imageManager s)
  /\ (Entity.draw imageManager s = None <-> Skier.getBounds imageManager s = None)
  /\ (Entity.draw imageManager s = None <-> Entity.getBounds imageManager s = None)
  /\ (forall call box,
        Entity.draw imageManager s = Some call ->
        Skier.getBounds imageManager s = Some box ->
        getImage imageManager (Entity.imageName s) = Some (Canvas.image call)
        /\ Canvas.w call = width (Canvas.image call)
        /\ Canvas.h call = height (Canvas.image call)
        /\ Rect.left box = Canvas.x call
        /\ Rect.top box = Canvas.y call).
Proof.
  unfold Skier.draw, Entity.draw, Skier.getBounds, Entity.getBounds.
  split; [intros ->; reflexivity |].
  split; [intros ->; reflexivity |].
  destruct (getImage imageManager (Entity.imageName s)) as [image|].
  - split; [split; discriminate |]. split; [split; discriminate |].
    intros call box [= <-] [= <-]. cbn. repeat split.
  - split; [split; reflexivity |]. split; [split; reflexivity |].
    discriminate.
Qed.

Lemma draw_and_bounds_witness :
  Skier.draw allLoaded (Skier.die (Skier.new 0 0)) = None.
Proof.
  refine (proj1 (draw_and_bounds allLoaded (Skier.die (Skier.new 0 0))) _).
  vm_compute. reflexivity.
Defined.

(** ** Game: the key handler *)

Section KeyFacts.
Context {RStates RImg RRest RCallback : Type} `{Countable RStates}.
Variable STARTING_SPEED_RHINO : number.
Variable KEYS : KEYS.t.

Implicit Types g : Game.t RStates RImg RRest RCallback.

(** X14.  While the game is paused, a key other than the pause key is not
    handled and changes nothing; the pause key resumes the game with the
    skier at the starting speed; in both cases the skier is as before but
    for its speed. *)
Theorem handleKeyDown_while_paused code g :
  Game.paused g = true ->
  (code <> KEYS.TOGGLE_PAUSE KEYS ->
   Game.handleKeyDown STARTING_SPEED_RHINO KEYS code g = (false, g))
  /\ (code = KEYS.TOGGLE_PAUSE KEYS ->
      Game.handleKeyDown STARTING_SPEED_RHINO KEYS code g
      = (true, Game.togglePause STARTING_SPEED_RHINO g)
      /\ Game.paused (Game.togglePause STARTING_SPEED_RHINO g) = false
      /\ Skier.speed (Game.skier (Game.togglePause STARTING_SPEED_RHINO g))
         = Skier.STARTING_SPEED)
  /\ Skier.set_speed (Skier.speed (Game.skier g))
       (Game.skier (snd (Game.handleKeyDown STARTING_SPEED_RHINO KEYS code g)))
     = Game.skier g.
Proof.
  intros Hpaused. unfold Game.handleKeyDown, Game.handleInput. rewrite Hpaused. cbn.
  split; [| split].
  - intros Hcode. apply String.eqb_neq in Hcode. rewrite Hcode. reflexivity.
  - intros ->. rewrite String.eqb_refl. split; [reflexivity |].
    unfold Game.togglePause. cbn. rewrite Hpaused. cbn. split; reflexivity.
  - destruct (String.eqb code (KEYS.TOGGLE_PAUSE KEYS)); cbn.
    + unfold Game.togglePause. cbn. rewrite Hpaused. cbn.
      destruct (Game.skier g) as [? ? ? ? ? ? ? []]. reflexivity.
    + destruct (Game.skier g) as [? ? ? ? ? ? ? []]. reflexivity.
Qed.

(** X15.  The key handler suppresses the browser's default action
    exactly for the pause key and, while the game is running and the skier
    is not dead, for the skier's five keys. *)
Theorem handleKeyDown_prevents_default code g :
  fst (Game.handleKeyDown STARTING_SPEED_RHINO KEYS code g) = true
  <-> (Game.paused g = false
       /\ Skier.isDead (Game.skier g) = false
       /\ (code = KEYS.LEFT KEYS \/ code = KEYS.RIGHT KEYS \/ code = KEYS.UP KEYS
           \/ code = KEYS.DOWN KEYS \/ code = KEYS.SPACE KEYS))
      \/ code = KEYS.TOGGLE_PAUSE KEYS.
Proof.
  assert (Hfst : fst (Game.handleKeyDown STARTING_SPEED_RHINO KEYS code g)
                 = (negb (Game.paused g)
                    && fst (Skier.handleInput KEYS code (Game.skier g)))
                   || String.eqb code (KEYS.TOGGLE_PAUSE KEYS)).
  { unfold Game.handleKeyDown, Game.handleInput.
    destruct (Game.paused g); cbn.
    - destruct (String.eqb code _); reflexivity.
    - destruct (Skier.handleInput KEYS code (Game.skier g)) as [handled s']. cbn.
      destruct (String.eqb code _); reflexivity. }
  rewrite Hfst, handleInput_answer.
  rewrite orb_true_iff, !andb_true_iff, !orb_true_iff, !negb_true_iff, !String.eqb_eq.
  tauto.
Qed.

End KeyFacts.

Lemma handleKeyDown_while_paused_witness :
  Game.handleKeyDown 10 sampleKeys "ArrowLeft" (Game.togglePause 10 sampleGame)
  = (false, Game.togglePause 10 sampleGame).
Proof.
  refine (proj1 (handleKeyDown_while_paused 10 sampleKeys "ArrowLeft"
                   (Game.togglePause 10 sampleGame) _) _).
  - vm_compute. reflexivity.
  - discriminate.
Defined.
